(** * AURORA power calculator: the statistical calculation engine

    A shallow embedding of the calculation engine of the React component
    [PowerCurves], as found in [src/src/App.js] and in the later revision
    [src/unnamed/part_000], together with the properties of its natural
    language specification.

    The engine computes with JavaScript numbers.  It is written here once
    per source file over an interface [JSNumber] of the operations it uses,
    and run on two models of that interface:

    - [F64.binary64]: IEEE 754 double precision, bit for bit: the primitive
      floating-point numbers of Rocq, with round to nearest, ties to even,
      NaN, infinities and signed zeros;
    - [XR.xreal]: exact real arithmetic extended with the IEEE special
      values (NaN and the two infinities), without rounding, overflow or a
      negative zero.

    Statements that are decided by running the code, or that rest on
    identities which rounding respects ([x * 1 = x], [x / 1 = x]), are made
    on the doubles.  Statements about the order of computed values for all
    configurations (monotonicity, the sign of a half-width) are made on
    the extended reals: they describe the formulas, not their rounding.
    Rounding can break the monotonicity of the MDE by one unit in the last
    place; on the doubles it is established by running the engine over
    every state that the select controls offer and over the whole search
    grid. *)

From Stdlib Require Import ZArith List String Bool Lia.
From Stdlib Require Import Floats.
From Stdlib Require Import Reals Lra.
From Stdlib Require Import Sorting.Sorted.
From Equations Require Import Equations.
Import ListNotations.

Set Implicit Arguments.

(** ** JavaScript numbers: the operations the engine uses *)

Class JSNumber (num : Type) : Type := {
  (** the decimal literal [m * 10^-k], e.g. [lit 196 2] for [1.96] *)
  lit : Z -> nat -> num;
  add : num -> num -> num;
  sub : num -> num -> num;
  mul : num -> num -> num;
  div : num -> num -> num;
  (** [Math.sqrt] *)
  sqrt : num -> num;
  (** [Math.round]: nearest integer, ties towards +infinity *)
  round : num -> num;
  (** [a <= b] and [a < b]; [a > b] is [ltb b a] *)
  leb : num -> num -> bool;
  ltb : num -> num -> bool;
  (** two numbers give the same property key ([ToString]) *)
  same_key : num -> num -> bool;
  (** [ToBoolean]: neither zero nor NaN *)
  truthy : num -> bool
}.

Declare Scope js_scope.
Delimit Scope js_scope with js.
Infix "+" := add : js_scope.
Infix "-" := sub : js_scope.
Infix "*" := mul : js_scope.
Infix "/" := div : js_scope.
Infix "<=?" := leb : js_scope.
Infix "<?" := ltb : js_scope.
Notation "a >? b" := (ltb b a) (at level 70) : js_scope.

(** ** Model 1: IEEE 754 binary64 *)

(** The doubles are the primitive floating-point numbers of Rocq, which are
    the binary64 numbers of the machine; the library relates each primitive
    operation to its executable specification on [spec_float]. *)
Module F64.

Definition t : Type := float.

Definition of_Z (m : Z) : t :=
  SF2Prim (binary_normalize prec emax m 0 false).

(** A decimal literal denotes the double nearest to it.  For the literals
    of this program both [m] and [10^k] are doubles, so the correctly
    rounded quotient is that nearest double. *)
Definition flit (m : Z) (k : nat) : t :=
  match k with
  | O => of_Z m
  | _ => PrimFloat.div (of_Z m) (of_Z (10 ^ Z.of_nat k))
  end.

(** [Math.round]: NaN, infinities and zeros are returned as they are, and
    so is a double with a non-negative exponent, which is an integer.
    Otherwise [x = +-m * 2^e] with [e < 0] and the result is
    [floor (x + 1/2)], computed exactly on integers; a zero result keeps
    the sign of [x]. *)
Definition fround (x : t) : t :=
  match Prim2SF x with
  | S754_finite s m e =>
      if (0 <=? e)%Z then x
      else
        let d := (2 ^ (- e))%Z in
        let q := ((2 * cond_Zopp s (Z.pos m) + d) / (2 * d))%Z in
        if (q =? 0)%Z then SF2Prim (S754_zero s) else of_Z q
  | _ => x
  end.

(** [ToBoolean]: false on the zeros and on NaN. *)
Definition ftruthy (x : t) : bool :=
  negb (PrimFloat.is_nan x || PrimFloat.eqb x PrimFloat.zero).

(** [ToString] maps two doubles to the same key exactly when they are
    equal as numbers (both zeros print as ["0"]), except that NaN, which
    is not equal to itself, always prints as ["NaN"]. *)
Definition fsame_key (x y : t) : bool :=
  (PrimFloat.is_nan x && PrimFloat.is_nan y) || PrimFloat.eqb x y.

#[global] Instance binary64 : JSNumber t := {|
  lit := flit;
  add := PrimFloat.add;
  sub := PrimFloat.sub;
  mul := PrimFloat.mul;
  div := PrimFloat.div;
  sqrt := PrimFloat.sqrt;
  round := fround;
  leb := PrimFloat.leb;
  ltb := PrimFloat.ltb;
  same_key := fsame_key;
  truthy := ftruthy
|}.

End F64.

(** ** Model 2: exact reals with the IEEE special values *)

Module XR.

Inductive t : Type :=
  | Fin (r : R)
  | PInf
  | NInf
  | NaN.

Definition xlit (m : Z) (k : nat) : t :=
    Fin (IZR m / IZR (10 ^ Z.of_nat k)).

Definition xopp (x : t) : t :=
    match x with
    | Fin a => Fin (- a)
    | PInf => NInf
    | NInf => PInf
    | NaN => NaN
    end.

Definition xadd (x y : t) : t :=
    match x, y with
    | NaN, _ | _, NaN => NaN
    | Fin a, Fin b => Fin (a + b)
    | PInf, NInf | NInf, PInf => NaN
    | PInf, _ | _, PInf => PInf
    | NInf, _ | _, NInf => NInf
    end.

Definition xsub (x y : t) : t := xadd x (xopp y).

  (** An infinity scaled by the finite factor [a]: NaN when [a] is zero. *)
Definition scale_inf (a : R) (positive : bool) : t :=
    if Rlt_dec 0 a then (if positive then PInf else NInf)
    else if Rlt_dec a 0 then (if positive then NInf else PInf)
    else NaN.

Definition xmul (x y : t) : t :=
    match x, y with
    | NaN, _ | _, NaN => NaN
    | Fin a, Fin b => Fin (a * b)
    | Fin a, PInf | PInf, Fin a => scale_inf a true
    | Fin a, NInf | NInf, Fin a => scale_inf a false
    | PInf, PInf | NInf, NInf => PInf
    | PInf, NInf | NInf, PInf => NInf
    end.

  (** Division by zero gives an infinity with the sign of the numerator
      (the only zero of this model is the positive one) and NaN for 0/0. *)
Definition xdiv (x y : t) : t :=
    match x, y with
    | NaN, _ | _, NaN => NaN
    | Fin a, Fin b =>
        if Req_dec_T b 0 then scale_inf a true else Fin (a / b)
    | Fin _, (PInf | NInf) => Fin 0
    | PInf, Fin b => if Rlt_dec b 0 then NInf else PInf
    | NInf, Fin b => if Rlt_dec b 0 then PInf else NInf
    | (PInf | NInf), (PInf | NInf) => NaN
    end.

Definition xsqrt (x : t) : t :=
    match x with
    | Fin a => if Rlt_dec a 0 then NaN else Fin (R_sqrt.sqrt a)
    | PInf => PInf
    | NInf | NaN => NaN
    end.

Definition xround (x : t) : t :=
    match x with
    | Fin a => Fin (IZR (Zfloor (a + / 2)))
    | _ => x
    end.

Definition xleb (x y : t) : bool :=
    match x, y with
    | NaN, _ | _, NaN => false
    | Fin a, Fin b => if Rle_dec a b then true else false
    | NInf, _ | _, PInf => true
    | _, _ => false
    end.

Definition xltb (x y : t) : bool :=
    match x, y with
    | NaN, _ | _, NaN => false
    | Fin a, Fin b => if Rlt_dec a b then true else false
    | PInf, _ | _, NInf => false
    | _, _ => true
    end.

Definition xsame_key (x y : t) : bool :=
    match x, y with
    | Fin a, Fin b => if Req_dec_T a b then true else false
    | PInf, PInf | NInf, NInf | NaN, NaN => true
    | _, _ => false
    end.

Definition xtruthy (x : t) : bool :=
    match x with
    | Fin a => if Req_dec_T a 0 then false else true
    | PInf | NInf => true
    | NaN => false
    end.

#[global] Instance xreal : JSNumber t := {|
    lit := xlit;
    add := xadd;
    sub := xsub;
    mul := xmul;
    div := xdiv;
    sqrt := xsqrt;
    round := xround;
    leb := xleb;
    ltb := xltb;
    same_key := xsame_key;
    truthy := xtruthy
  |}.

End XR.

(** ** Data model *)

(** The state of the component: one field per [useState] hook, in the order
    of the [defaults] object of [part_000].  [App.js] holds the same state
    except [nClinicians] and [clusterSizeCV], which none of its functions
    reads; its initial values are those of [defaults]. *)
Record Settings (num : Type) : Type := mkSettings {
  power : num;
  alpha : num;
  iccHamd : num;
  iccRetention : num;
  r2Hamd : num;
  r2Retention : num;
  patientsPerCluster : num;
  nClinicians : num;
  clusterSizeCV : num;
  controlAttrition : num;
  treatmentRatio : num;
  measurementModel : string;
  sumScoreReliability : num;
  raschReliability : num;
  raterVarianceProp : num;
  targetIcc : num;
  expectedIcc : num;
  iccClusterCorr : num;
  nFollowups : num;
  survivalEfficiency : num
}.

(** The constants bound in the body of [calcHamdMDE], in source order. *)
Module HamdLocals.
Record t (num : Type) : Type := mk {
    nClusters : num;
    treatmentProportion : num;
    nTreatmentClusters : num;
    nControlClusters : num;
    nTreatmentPatients : num;
    nControlPatients : num;
    nHarmonic : num;
    sigma2 : num;
    sigma2Adj : num;
    clusterSize : num;
    designEffect : num;
    ipcwVIF : num;
    repeatedMeasuresGain : num;
    baseVariance : num;
    netVariance : num;
    baselineMDE : num;
    mde : num
  }.
End HamdLocals.

(** The object returned by [calcHamdMDE]. *)
Module Hamd.
Record t (num : Type) : Type := mk {
    mde : num;
    baselineMDE : num;
    effectSize : num;
    nClusters : num;
    nTreatmentClusters : num;
    nControlClusters : num;
    nCompleters : num;
    varianceReduction : num
  }.
End Hamd.

(** The object returned by [calcRetentionMDE]. *)
Module Retention.
Record t (num : Type) : Type := mk {
    mde : num;
    controlRate : num;
    treatmentRate : num;
    nClusters : num;
    binaryMDE : num
  }.
End Retention.

(** The object returned by [calcIccValidation]. *)
Module IccVal.
Record t (num : Type) : Type := mk {
    nTreatmentPatients : num;
    nTreatmentClusters : num;
    nObservations : num;
    nEffective : num;
    seIcc : num;
    ciHalfWidth : num;
    lowerBound : num;
    upperBound : num;
    canRuleOutPoor : bool
  }.
End IccVal.

(** An element of the array [powerData].  The loop counter [n] only takes
    integer values far below 2^53; it is kept as an integer. *)
Module Point.
Record t (num : Type) : Type := mk {
    n : Z;
    clusters : num;
    hamdMDE : num;
    hamdBaselineMDE : num;
    hamdD : num;
    retentionMDE : num;
    retentionTreatment : num;
    iccCiWidth : num;
    iccLowerBound : num
  }.
End Point.

(** What [findNForMDE] returns: a number of the grid or a string. *)
Inductive FindResult : Type :=
| FoundN (n : Z)
| Message (s : string).

(** Property access [result[field]] on a returned object; [None] stands for
    [undefined]. *)
Class JSObject (num : Type) (O : Type) : Type :=
  get_field : O -> string -> option num.

#[export] Instance Hamd_object (num : Type) : JSObject num (Hamd.t num) :=
  fun r field =>
    if String.eqb field "mde" then Some (Hamd.mde r)
    else if String.eqb field "baselineMDE" then Some (Hamd.baselineMDE r)
    else if String.eqb field "effectSize" then Some (Hamd.effectSize r)
    else if String.eqb field "nClusters" then Some (Hamd.nClusters r)
    else if String.eqb field "nTreatmentClusters"
      then Some (Hamd.nTreatmentClusters r)
    else if String.eqb field "nControlClusters"
      then Some (Hamd.nControlClusters r)
    else if String.eqb field "nCompleters" then Some (Hamd.nCompleters r)
    else if String.eqb field "varianceReduction"
      then Some (Hamd.varianceReduction r)
    else None.

#[export] Instance Retention_object (num : Type)
  : JSObject num (Retention.t num) :=
  fun r field =>
    if String.eqb field "mde" then Some (Retention.mde r)
    else if String.eqb field "controlRate" then Some (Retention.controlRate r)
    else if String.eqb field "treatmentRate"
      then Some (Retention.treatmentRate r)
    else if String.eqb field "nClusters" then Some (Retention.nClusters r)
    else if String.eqb field "binaryMDE" then Some (Retention.binaryMDE r)
    else None.

(** ** Object literals used as lookup tables *)

Section Lookup.
Context {num : Type} `{JSNumber num}.

  (** [z[key]] on an object literal with numeric keys. *)
Fixpoint lookup (z : list (num * num)) (key : num) : option num :=
    match z with
    | [] => None
    | (k, v) :: rest => if same_key k key then Some v else lookup rest key
    end.

  (** [v || d] where [v] is a number or [undefined]. *)
Definition or_else (v : option num) (d : num) : num :=
    match v with
    | Some x => if truthy x then x else d
    | None => d
    end.

  (** [v <= t] where [v] is a number or [undefined] ([undefined] converts
      to NaN, and every comparison with NaN is false). *)
Definition leb_undef (v : option num) (t : num) : bool :=
    match v with
    | Some x => leb x t
    | None => false
    end.
End Lookup.

(** The number of counter values from [n] up to the bound 1300 of the two
    loops of the engine; it decreases with each iteration. *)
Definition steps_left (n : Z) : nat := Z.to_nat (1301 - n).
Arguments steps_left : simpl never.

Lemma steps_left_decr (n step : Z) :
  (n <= 1300)%Z -> (0 < step)%Z -> steps_left (n + step) < steps_left n.
Proof. unfold steps_left. lia. Qed.

(** ** The engine of [src/src/App.js] *)

Module AppJs.
Section Engine.
Context {num : Type} `{JSNumber num}.
Local Open Scope js_scope.

  (** [zAlpha], memoised on [alpha] (lines 42-50). *)
Definition zAlpha (alpha : num) : num :=
    let z := [ (lit 5 2, lit 196 2);
               (lit 25 3, lit 224 2);
               (lit 1 2, lit 258 2) ] in
    or_else (lookup z alpha) (lit 224 2).

  (** [zBeta], memoised on [power] (lines 52-61). *)
Definition zBeta (power : num) : num :=
    let z := [ (lit 7 1, lit 524 3);
               (lit 75 2, lit 674 3);
               (lit 8 1, lit 842 3);
               (lit 85 2, lit 1036 3);
               (lit 9 1, lit 1282 3) ] in
    or_else (lookup z power) (lit 842 3).

Definition useRasch (measurementModel : string) : bool :=
    String.eqb measurementModel "rasch" || String.eqb measurementModel "mfrm".

Definition useMFRM (measurementModel : string) : bool :=
    String.eqb measurementModel "mfrm".

  (** [measurementVarianceMultiplier], memoised on its five dependencies
      (lines 64-94). *)
Definition measurementVarianceMultiplier
      (useRasch useMFRM : bool)
      (sumScoreReliability raschReliability raterVarianceProp : num) : num :=
    let multiplier := lit 1 0 in
    let multiplier :=
      if useRasch then
        let sumScoreError := lit 1 0 - sumScoreReliability in
        let raschError := lit 1 0 - raschReliability in
        let errorReduction := (sumScoreError - raschError) / sumScoreError in
        multiplier * (lit 1 0 - errorReduction * sumScoreError)
      else multiplier in
    let multiplier :=
      if useMFRM then multiplier * (lit 1 0 - raterVarianceProp)
      else multiplier in
    multiplier.

Variable s : Settings num.

Definition multiplierOf : num :=
    measurementVarianceMultiplier
      (useRasch (measurementModel s)) (useMFRM (measurementModel s))
      (sumScoreReliability s) (raschReliability s) (raterVarianceProp s).

  (** The body of [calcHamdMDE] up to its [return] (lines 98-140). *)
Definition calcHamdMDE_locals (totalN : num) : HamdLocals.t num :=
    let nClusters := round (totalN / patientsPerCluster s) in
    let treatmentProportion :=
      treatmentRatio s / (treatmentRatio s + lit 1 0) in
    let nTreatmentClusters := round (nClusters * treatmentProportion) in
    let nControlClusters := nClusters - nTreatmentClusters in
    let nTreatmentPatients :=
      nTreatmentClusters * patientsPerCluster s
      * (lit 1 0 - controlAttrition s) in
    let nControlPatients :=
      nControlClusters * patientsPerCluster s
      * (lit 1 0 - controlAttrition s) in
    let nHarmonic :=
      (lit 2 0 * nTreatmentPatients * nControlPatients)
      / (nTreatmentPatients + nControlPatients) in
    let sigma2 := lit 49 0 in
    let sigma2Adj := sigma2 * (lit 1 0 - r2Hamd s) in
    let clusterSize := patientsPerCluster s * (lit 1 0 - controlAttrition s) in
    let designEffect := lit 1 0 + (clusterSize - lit 1 0) * iccHamd s in
    let ipcwVIF := lit 12 1 in
    let repeatedMeasuresGain := lit 143 2 in
    let baseVariance :=
      (sigma2Adj * designEffect * ipcwVIF) / repeatedMeasuresGain in
    let netVariance := baseVariance * multiplierOf in
    let baselineMDE :=
      (zAlpha (alpha s) + zBeta (power s))
      * sqrt ((lit 2 0 * baseVariance) / nHarmonic) in
    let mde :=
      (zAlpha (alpha s) + zBeta (power s))
      * sqrt ((lit 2 0 * netVariance) / nHarmonic) in
    HamdLocals.mk nClusters treatmentProportion nTreatmentClusters
      nControlClusters nTreatmentPatients nControlPatients nHarmonic
      sigma2 sigma2Adj clusterSize designEffect ipcwVIF repeatedMeasuresGain
      baseVariance netVariance baselineMDE mde.

  (** [calcHamdMDE] (lines 97-152): the returned object. *)
Definition calcHamdMDE (totalN : num) : Hamd.t num :=
    let l := calcHamdMDE_locals totalN in
    {| Hamd.mde := HamdLocals.mde l;
       Hamd.baselineMDE := HamdLocals.baselineMDE l;
       Hamd.effectSize := HamdLocals.mde l / lit 7 0;
       Hamd.nClusters := HamdLocals.nClusters l;
       Hamd.nTreatmentClusters := HamdLocals.nTreatmentClusters l;
       Hamd.nControlClusters := HamdLocals.nControlClusters l;
       Hamd.nCompleters :=
         round (HamdLocals.nTreatmentPatients l
                + HamdLocals.nControlPatients l);
       Hamd.varianceReduction := (lit 1 0 - multiplierOf) * lit 100 0 |}.

  (** [calcRetentionMDE] (lines 157-193). *)
Definition calcRetentionMDE (totalN : num) : Retention.t num :=
    let nClusters := round (totalN / patientsPerCluster s) in
    let treatmentProportion :=
      treatmentRatio s / (treatmentRatio s + lit 1 0) in
    let nTreatmentClusters := round (nClusters * treatmentProportion) in
    let nControlClusters := nClusters - nTreatmentClusters in
    let nTreatment := nTreatmentClusters * patientsPerCluster s in
    let nControl := nControlClusters * patientsPerCluster s in
    let designEffect :=
      lit 1 0 + (patientsPerCluster s - lit 1 0) * iccRetention s in
    let p0 := controlAttrition s in
    let baseSE :=
      sqrt (p0 * (lit 1 0 - p0)
            * (lit 1 0 / nTreatment + lit 1 0 / nControl)) in
    let clusteredSE := baseSE * sqrt designEffect in
    let adjustedSE := clusteredSE * sqrt (lit 1 0 - r2Retention s) in
    let survivalSE := adjustedSE / sqrt (survivalEfficiency s) in
    let mde := (zAlpha (alpha s) + zBeta (power s)) * survivalSE in
    {| Retention.mde := mde * lit 100 0;
       Retention.controlRate := p0 * lit 100 0;
       Retention.treatmentRate := (p0 - mde) * lit 100 0;
       Retention.nClusters := nClusters;
       Retention.binaryMDE :=
         (zAlpha (alpha s) + zBeta (power s)) * adjustedSE * lit 100 0 |}.

  (** [calcIccValidation] (lines 197-242). *)
Definition calcIccValidation (totalN : num) : IccVal.t num :=
    let nClusters := round (totalN / patientsPerCluster s) in
    let treatmentProportion :=
      treatmentRatio s / (treatmentRatio s + lit 1 0) in
    let nTreatmentClusters := round (nClusters * treatmentProportion) in
    let nTreatmentPatients :=
      nTreatmentClusters * patientsPerCluster s
      * (lit 1 0 - controlAttrition s) in
    let nObservations := nTreatmentPatients * nFollowups s in
    let avgObsPerCluster := nObservations / nTreatmentClusters in
    let designEffect :=
      lit 1 0 + (avgObsPerCluster - lit 1 0) * iccClusterCorr s in
    let nEffective := nObservations / designEffect in
    let seIcc :=
      (lit 1 0 - expectedIcc s * expectedIcc s)
      * sqrt (lit 2 0 / (nEffective - lit 1 0)) in
    let ciHalfWidth := lit 196 2 * seIcc in
    let lowerBound := expectedIcc s - ciHalfWidth in
    let canRuleOutPoor := lowerBound >? targetIcc s in
    {| IccVal.nTreatmentPatients := round nTreatmentPatients;
       IccVal.nTreatmentClusters := nTreatmentClusters;
       IccVal.nObservations := round nObservations;
       IccVal.nEffective := round nEffective;
       IccVal.seIcc := seIcc;
       IccVal.ciHalfWidth := ciHalfWidth;
       IccVal.lowerBound := lowerBound;
       IccVal.upperBound := expectedIcc s + ciHalfWidth;
       IccVal.canRuleOutPoor := canRuleOutPoor |}.

  (** The object pushed by one iteration of the loop of [powerData]. *)
Definition powerData_point (n : Z) : Point.t num :=
    let hamd := calcHamdMDE (lit n 0) in
    let retention := calcRetentionMDE (lit n 0) in
    let iccVal := calcIccValidation (lit n 0) in
    {| Point.n := n;
       Point.clusters := Hamd.nClusters hamd;
       Point.hamdMDE := Hamd.mde hamd;
       Point.hamdBaselineMDE := Hamd.baselineMDE hamd;
       Point.hamdD := Hamd.effectSize hamd;
       Point.retentionMDE := Retention.mde retention;
       Point.retentionTreatment := Retention.treatmentRate retention;
       Point.iccCiWidth := IccVal.ciHalfWidth iccVal * lit 2 0;
       Point.iccLowerBound := IccVal.lowerBound iccVal |}.

  (** The loop [for (let n = ...; n <= 1300; n += 50)] of [powerData], from
      the counter value [n] with the array [data] built so far. *)
Equations? powerData_loop (n : Z) (data : list (Point.t num))
    : list (Point.t num) by wf (steps_left n) lt :=
    powerData_loop n data with Z_le_gt_dec n 1300 => {
      | left _ := powerData_loop (n + 50) (data ++ [powerData_point n]);
      | right _ := data }.
Proof. apply steps_left_decr; lia. Qed.

  (** [powerData] (lines 245-263). *)
Definition powerData : list (Point.t num) := powerData_loop 400 [].

End Engine.

Section Search.
Context {num : Type} `{JSNumber num}.
Context {O : Type} `{JSObject num O}.

  (** The loop of [findNForMDE] from the counter value [n]. *)
Equations? findNForMDE_loop (targetMDE : num) (calcFunc : num -> O)
      (field : string) (n : Z) : FindResult
    by wf (steps_left n) lt :=
    findNForMDE_loop targetMDE calcFunc field n with Z_le_gt_dec n 1300 => {
      | left _ :=
          let result := calcFunc (lit n 0) in
          if leb_undef (get_field result field) targetMDE then FoundN n
          else findNForMDE_loop targetMDE calcFunc field (n + 10);
      | right _ := Message ">1300" }.
Proof. apply steps_left_decr; lia. Qed.

  (** [findNForMDE] (lines 290-296). *)
Definition findNForMDE (targetMDE : num) (calcFunc : num -> O)
      (field : string) : FindResult :=
    findNForMDE_loop targetMDE calcFunc field 400.

End Search.
End AppJs.

(** ** The engine of [src/unnamed/part_000] *)

Module Part000.
Section Engine.
Context {num : Type} `{JSNumber num}.
Local Open Scope js_scope.

  (** [zAlpha], memoised on [alpha] (lines 201-209). *)
Definition zAlpha (alpha : num) : num :=
    let z := [ (lit 5 2, lit 196 2);
               (lit 25 3, lit 224 2);
               (lit 1 2, lit 258 2) ] in
    or_else (lookup z alpha) (lit 224 2).

  (** [zBeta], memoised on [power] (lines 211-220). *)
Definition zBeta (power : num) : num :=
    let z := [ (lit 7 1, lit 524 3);
               (lit 75 2, lit 674 3);
               (lit 8 1, lit 842 3);
               (lit 85 2, lit 1036 3);
               (lit 9 1, lit 1282 3) ] in
    or_else (lookup z power) (lit 842 3).

Definition useRasch (measurementModel : string) : bool :=
    String.eqb measurementModel "rasch" || String.eqb measurementModel "mfrm".

Definition useMFRM (measurementModel : string) : bool :=
    String.eqb measurementModel "mfrm".

  (** [measurementVarianceMultiplier], memoised on its five dependencies
      (lines 223-253). *)
Definition measurementVarianceMultiplier
      (useRasch useMFRM : bool)
      (sumScoreReliability raschReliability raterVarianceProp : num) : num :=
    let multiplier := lit 1 0 in
    let multiplier :=
      if useRasch then
        let sumScoreError := lit 1 0 - sumScoreReliability in
        let raschError := lit 1 0 - raschReliability in
        let errorReduction := (sumScoreError - raschError) / sumScoreError in
        multiplier * (lit 1 0 - errorReduction * sumScoreError)
      else multiplier in
    let multiplier :=
      if useMFRM then multiplier * (lit 1 0 - raterVarianceProp)
      else multiplier in
    multiplier.

Variable s : Settings num.

Definition multiplierOf : num :=
    measurementVarianceMultiplier
      (useRasch (measurementModel s)) (useMFRM (measurementModel s))
      (sumScoreReliability s) (raschReliability s) (raterVarianceProp s).

  (** The body of [calcHamdMDE] up to its [return] (lines 257-300). *)
Definition calcHamdMDE_locals (totalN : num) : HamdLocals.t num :=
    let nClusters := round (totalN / patientsPerCluster s) in
    let treatmentProportion :=
      treatmentRatio s / (treatmentRatio s + lit 1 0) in
    let nTreatmentClusters := round (nClusters * treatmentProportion) in
    let nControlClusters := nClusters - nTreatmentClusters in
    let nTreatmentPatients :=
      nTreatmentClusters * patientsPerCluster s
      * (lit 1 0 - controlAttrition s) in
    let nControlPatients :=
      nControlClusters * patientsPerCluster s
      * (lit 1 0 - controlAttrition s) in
    let nHarmonic :=
      (lit 2 0 * nTreatmentPatients * nControlPatients)
      / (nTreatmentPatients + nControlPatients) in
    let sigma2 := lit 49 0 in
    let sigma2Adj := sigma2 * (lit 1 0 - r2Hamd s) in
    let clusterSize := patientsPerCluster s * (lit 1 0 - controlAttrition s) in
    let designEffect :=
      (lit 1 0 + (clusterSize - lit 1 0) * iccHamd s)
      * (lit 1 0 + clusterSizeCV s * clusterSizeCV s) in
    let ipcwVIF := lit 12 1 in
    let repeatedMeasuresGain := lit 143 2 in
    let baseVariance :=
      (sigma2Adj * designEffect * ipcwVIF) / repeatedMeasuresGain in
    let netVariance := baseVariance * multiplierOf in
    let baselineMDE :=
      (zAlpha (alpha s) + zBeta (power s))
      * sqrt ((lit 2 0 * baseVariance) / nHarmonic) in
    let mde :=
      (zAlpha (alpha s) + zBeta (power s))
      * sqrt ((lit 2 0 * netVariance) / nHarmonic) in
    HamdLocals.mk nClusters treatmentProportion nTreatmentClusters
      nControlClusters nTreatmentPatients nControlPatients nHarmonic
      sigma2 sigma2Adj clusterSize designEffect ipcwVIF repeatedMeasuresGain
      baseVariance netVariance baselineMDE mde.

  (** [calcHamdMDE] (lines 256-312): the returned object. *)
Definition calcHamdMDE (totalN : num) : Hamd.t num :=
    let l := calcHamdMDE_locals totalN in
    {| Hamd.mde := HamdLocals.mde l;
       Hamd.baselineMDE := HamdLocals.baselineMDE l;
       Hamd.effectSize := HamdLocals.mde l / lit 7 0;
       Hamd.nClusters := HamdLocals.nClusters l;
       Hamd.nTreatmentClusters := HamdLocals.nTreatmentClusters l;
       Hamd.nControlClusters := HamdLocals.nControlClusters l;
       Hamd.nCompleters :=
         round (HamdLocals.nTreatmentPatients l
                + HamdLocals.nControlPatients l);
       Hamd.varianceReduction := (lit 1 0 - multiplierOf) * lit 100 0 |}.

  (** [calcRetentionMDE] (lines 315-353). *)
Definition calcRetentionMDE (totalN : num) : Retention.t num :=
    let nClusters := round (totalN / patientsPerCluster s) in
    let treatmentProportion :=
      treatmentRatio s / (treatmentRatio s + lit 1 0) in
    let nTreatmentClusters := round (nClusters * treatmentProportion) in
    let nControlClusters := nClusters - nTreatmentClusters in
    let nTreatment := nTreatmentClusters * patientsPerCluster s in
    let nControl := nControlClusters * patientsPerCluster s in
    let designEffect :=
      (lit 1 0 + (patientsPerCluster s - lit 1 0) * iccRetention s)
      * (lit 1 0 + clusterSizeCV s * clusterSizeCV s) in
    let p0 := controlAttrition s in
    let baseSE :=
      sqrt (p0 * (lit 1 0 - p0)
            * (lit 1 0 / nTreatment + lit 1 0 / nControl)) in
    let clusteredSE := baseSE * sqrt designEffect in
    let adjustedSE := clusteredSE * sqrt (lit 1 0 - r2Retention s) in
    let survivalSE := adjustedSE / sqrt (survivalEfficiency s) in
    let mde := (zAlpha (alpha s) + zBeta (power s)) * survivalSE in
    {| Retention.mde := mde * lit 100 0;
       Retention.controlRate := p0 * lit 100 0;
       Retention.treatmentRate := (p0 - mde) * lit 100 0;
       Retention.nClusters := nClusters;
       Retention.binaryMDE :=
         (zAlpha (alpha s) + zBeta (power s)) * adjustedSE * lit 100 0 |}.

  (** [calcIccValidation] (lines 357-402). *)
Definition calcIccValidation (totalN : num) : IccVal.t num :=
    let nClusters := round (totalN / patientsPerCluster s) in
    let treatmentProportion :=
      treatmentRatio s / (treatmentRatio s + lit 1 0) in
    let nTreatmentClusters := round (nClusters * treatmentProportion) in
    let nTreatmentPatients :=
      nTreatmentClusters * patientsPerCluster s
      * (lit 1 0 - controlAttrition s) in
    let nObservations := nTreatmentPatients * nFollowups s in
    let avgObsPerCluster := nObservations / nTreatmentClusters in
    let designEffect :=
      lit 1 0 + (avgObsPerCluster - lit 1 0) * iccClusterCorr s in
    let nEffective := nObservations / designEffect in
    let seIcc :=
      (lit 1 0 - expectedIcc s * expectedIcc s)
      * sqrt (lit 2 0 / (nEffective - lit 1 0)) in
    let ciHalfWidth := lit 196 2 * seIcc in
    let lowerBound := expectedIcc s - ciHalfWidth in
    let canRuleOutPoor := lowerBound >? targetIcc s in
    {| IccVal.nTreatmentPatients := round nTreatmentPatients;
       IccVal.nTreatmentClusters := nTreatmentClusters;
       IccVal.nObservations := round nObservations;
       IccVal.nEffective := round nEffective;
       IccVal.seIcc := seIcc;
       IccVal.ciHalfWidth := ciHalfWidth;
       IccVal.lowerBound := lowerBound;
       IccVal.upperBound := expectedIcc s + ciHalfWidth;
       IccVal.canRuleOutPoor := canRuleOutPoor |}.

  (** The object pushed by one iteration of the loop of [powerData]. *)
Definition powerData_point (n : Z) : Point.t num :=
    let hamd := calcHamdMDE (lit n 0) in
    let retention := calcRetentionMDE (lit n 0) in
    let iccVal := calcIccValidation (lit n 0) in
    {| Point.n := n;
       Point.clusters := Hamd.nClusters hamd;
       Point.hamdMDE := Hamd.mde hamd;
       Point.hamdBaselineMDE := Hamd.baselineMDE hamd;
       Point.hamdD := Hamd.effectSize hamd;
       Point.retentionMDE := Retention.mde retention;
       Point.retentionTreatment := Retention.treatmentRate retention;
       Point.iccCiWidth := IccVal.ciHalfWidth iccVal * lit 2 0;
       Point.iccLowerBound := IccVal.lowerBound iccVal |}.

  (** The loop [for (let n = ...; n <= 1300; n += 50)] of [powerData], from
      the counter value [n] with the array [data] built so far. *)
Equations? powerData_loop (n : Z) (data : list (Point.t num))
    : list (Point.t num) by wf (steps_left n) lt :=
    powerData_loop n data with Z_le_gt_dec n 1300 => {
      | left _ := powerData_loop (n + 50) (data ++ [powerData_point n]);
      | right _ := data }.
Proof. apply steps_left_decr; lia. Qed.

  (** [powerData] (lines 405-423). *)
Definition powerData : list (Point.t num) := powerData_loop 400 [].

End Engine.
End Part000.

(** * Vocabulary of the properties *)

(** The sample sizes of the sweep: 400, 450, ..., 1300. *)
Definition curve_grid : list Z :=
  map (fun i => (400 + 50 * Z.of_nat i)%Z) (seq 0 19).

(** The points from the counter value [n] on, as the loop pushes them. *)
Fixpoint sweep (fuel : nat) (n : Z) : list Z :=
  match fuel with
  | O => []
  | S fuel' => if Z_le_gt_dec n 1300 then n :: sweep fuel' (n + 50) else []
  end.


(** The initial state: the [defaults] object of [part_000] (lines 18-39),
    whose values are also the initial values of the hooks of [App.js]
    (lines 17-39 and 155). *)
Definition defaults {num : Type} `{JSNumber num} : Settings num :=
  {| power := lit 8 1;
     alpha := lit 25 3;
     iccHamd := lit 4 2;
     iccRetention := lit 5 2;
     r2Hamd := lit 35 2;
     r2Retention := lit 5 2;
     patientsPerCluster := lit 10 0;
     nClinicians := lit 100 0;
     clusterSizeCV := lit 0 0;
     controlAttrition := lit 3 1;
     treatmentRatio := lit 3 0;
     measurementModel := "sum";
     sumScoreReliability := lit 86 2;
     raschReliability := lit 91 2;
     raterVarianceProp := lit 7 2;
     targetIcc := lit 75 2;
     expectedIcc := lit 8 1;
     iccClusterCorr := lit 3 2;
     nFollowups := lit 4 0;
     survivalEfficiency := lit 4 0 |}.

(** State updates ([setSurvivalEfficiency], [setClusterSizeCV],
    [setMeasurementModel], [setExpectedIcc], [setTargetIcc]). *)
Definition setSurvivalEfficiency {num : Type} (s : Settings num) (v : num)
  : Settings num :=
  {| power := power s; alpha := alpha s; iccHamd := iccHamd s;
     iccRetention := iccRetention s; r2Hamd := r2Hamd s;
     r2Retention := r2Retention s;
     patientsPerCluster := patientsPerCluster s;
     nClinicians := nClinicians s; clusterSizeCV := clusterSizeCV s;
     controlAttrition := controlAttrition s;
     treatmentRatio := treatmentRatio s;
     measurementModel := measurementModel s;
     sumScoreReliability := sumScoreReliability s;
     raschReliability := raschReliability s;
     raterVarianceProp := raterVarianceProp s;
     targetIcc := targetIcc s; expectedIcc := expectedIcc s;
     iccClusterCorr := iccClusterCorr s; nFollowups := nFollowups s;
     survivalEfficiency := v |}.

Definition setClusterSizeCV {num : Type} (s : Settings num) (v : num)
  : Settings num :=
  {| power := power s; alpha := alpha s; iccHamd := iccHamd s;
     iccRetention := iccRetention s; r2Hamd := r2Hamd s;
     r2Retention := r2Retention s;
     patientsPerCluster := patientsPerCluster s;
     nClinicians := nClinicians s; clusterSizeCV := v;
     controlAttrition := controlAttrition s;
     treatmentRatio := treatmentRatio s;
     measurementModel := measurementModel s;
     sumScoreReliability := sumScoreReliability s;
     raschReliability := raschReliability s;
     raterVarianceProp := raterVarianceProp s;
     targetIcc := targetIcc s; expectedIcc := expectedIcc s;
     iccClusterCorr := iccClusterCorr s; nFollowups := nFollowups s;
     survivalEfficiency := survivalEfficiency s |}.

Definition setMeasurementModel {num : Type} (s : Settings num) (v : string)
  : Settings num :=
  {| power := power s; alpha := alpha s; iccHamd := iccHamd s;
     iccRetention := iccRetention s; r2Hamd := r2Hamd s;
     r2Retention := r2Retention s;
     patientsPerCluster := patientsPerCluster s;
     nClinicians := nClinicians s; clusterSizeCV := clusterSizeCV s;
     controlAttrition := controlAttrition s;
     treatmentRatio := treatmentRatio s;
     measurementModel := v;
     sumScoreReliability := sumScoreReliability s;
     raschReliability := raschReliability s;
     raterVarianceProp := raterVarianceProp s;
     targetIcc := targetIcc s; expectedIcc := expectedIcc s;
     iccClusterCorr := iccClusterCorr s; nFollowups := nFollowups s;
     survivalEfficiency := survivalEfficiency s |}.

Definition setTargetIcc {num : Type} (s : Settings num) (v : num)
  : Settings num :=
  {| power := power s; alpha := alpha s; iccHamd := iccHamd s;
     iccRetention := iccRetention s; r2Hamd := r2Hamd s;
     r2Retention := r2Retention s;
     patientsPerCluster := patientsPerCluster s;
     nClinicians := nClinicians s; clusterSizeCV := clusterSizeCV s;
     controlAttrition := controlAttrition s;
     treatmentRatio := treatmentRatio s;
     measurementModel := measurementModel s;
     sumScoreReliability := sumScoreReliability s;
     raschReliability := raschReliability s;
     raterVarianceProp := raterVarianceProp s;
     targetIcc := v; expectedIcc := expectedIcc s;
     iccClusterCorr := iccClusterCorr s; nFollowups := nFollowups s;
     survivalEfficiency := survivalEfficiency s |}.

(** The configuration of the end-to-end example of the specification:
    power 0.80, alpha 0.025, ICC 0.04, R2 0.35, 10 patients per cluster,
    attrition 0.30, allocation 3:1 and the sum-score model; the fields the
    example leaves open are those of [rest]. *)
Definition example_settings {num : Type} `{JSNumber num}
    (rest : Settings num) : Settings num :=
  {| power := lit 8 1;
     alpha := lit 25 3;
     iccHamd := lit 4 2;
     iccRetention := iccRetention rest;
     r2Hamd := lit 35 2;
     r2Retention := r2Retention rest;
     patientsPerCluster := lit 10 0;
     nClinicians := nClinicians rest;
     clusterSizeCV := clusterSizeCV rest;
     controlAttrition := lit 3 1;
     treatmentRatio := lit 3 0;
     measurementModel := "sum";
     sumScoreReliability := sumScoreReliability rest;
     raschReliability := raschReliability rest;
     raterVarianceProp := raterVarianceProp rest;
     targetIcc := targetIcc rest;
     expectedIcc := expectedIcc rest;
     iccClusterCorr := iccClusterCorr rest;
     nFollowups := nFollowups rest;
     survivalEfficiency := survivalEfficiency rest |}.

(** The formulas of the specification, in its words (section 4.3, steps 3
    to 9), as functions of the quantities they name. *)
Module Spec.
Section Formulas.
Context {num : Type} `{JSNumber num}.
Local Open Scope js_scope.

Definition completers (clustersInArm patientsPerCluster controlAttrition : num)
  : num :=
  clustersInArm * patientsPerCluster * (lit 1 0 - controlAttrition).

Definition nHarmonic (nTreatment nControl : num) : num :=
  lit 2 0 * nTreatment * nControl / (nTreatment + nControl).

Definition sigma2Adjusted (severitySD r2Severity : num) : num :=
  severitySD * severitySD * (lit 1 0 - r2Severity).

Definition designEffect
    (patientsPerCluster controlAttrition iccSeverity clusterSizeCV : num)
  : num :=
  let clusterSizeAfterAttrition :=
    patientsPerCluster * (lit 1 0 - controlAttrition) in
  (lit 1 0 + (clusterSizeAfterAttrition - lit 1 0) * iccSeverity)
  * (lit 1 0 + clusterSizeCV * clusterSizeCV).

Definition baseVariance (sigma2Adjusted designEffect ipcwVIF
    repeatedMeasuresGain : num) : num :=
  sigma2Adjusted * designEffect * ipcwVIF / repeatedMeasuresGain.

Definition netVariance (baseVariance multiplier : num) : num :=
  baseVariance * multiplier.

Definition mde (zAlpha zBeta netVariance nHarmonic : num) : num :=
  (zAlpha + zBeta) * sqrt (lit 2 0 * netVariance / nHarmonic).

End Formulas.
End Spec.

(** The closed form of the example: the formulas above at zAlpha = 2.24,
    zBeta = 0.842, severitySD = 7, ipcwVIF = 1.2,
    repeatedMeasuresGain = 1.43, with 75 and 25 clusters of 10 patients,
    attrition 0.30, R2 0.35, ICC 0.04, equal cluster sizes and the
    multiplier 1 of the sum-score model. *)
Definition example_closed_form {num : Type} `{JSNumber num} : num :=
  let nTreatment := Spec.completers (lit 75 0) (lit 10 0) (lit 3 1) in
  let nControl := Spec.completers (lit 25 0) (lit 10 0) (lit 3 1) in
  let baseVariance :=
    Spec.baseVariance
      (Spec.sigma2Adjusted (lit 7 0) (lit 35 2))
      (Spec.designEffect (lit 10 0) (lit 3 1) (lit 4 2) (lit 0 0))
      (lit 12 1) (lit 143 2) in
  Spec.mde (lit 224 2) (lit 842 3)
    (Spec.netVariance baseVariance (lit 1 0))
    (Spec.nHarmonic nTreatment nControl).



(** The sample sizes that [findNForMDE] tries: 400, 410, ..., 1300. *)
Definition on_search_grid (n : Z) : Prop :=
  (400 <= n <= 1300)%Z /\ ((n - 400) mod 10 = 0)%Z.

(** The test of [findNForMDE] at the sample size [n]:
    [calcFunc(n)[field] <= targetMDE]. *)
Definition meets_target {num : Type} `{JSNumber num}
    {O : Type} `{JSObject num O}
    (targetMDE : num) (calcFunc : num -> O) (field : string) (n : Z) : bool :=
  leb_undef (get_field (calcFunc (lit n 0)) field) targetMDE.








(** The double 1 in the executable specification of the doubles: the
    mantissa 2^52 with the exponent -52. *)
Definition one_sf : spec_float := S754_finite false 4503599627370496 (-52).

(** The value of the measurement-model multiplier on real inputs away from
    the sum-score reliability 1. *)
Definition multiplier_value (useRasch useMFRM : bool) (ssr rr rvp : R) : R :=
  ((if useRasch then 1 - (rr - ssr) else 1)
   * (if useMFRM then 1 - rvp else 1))%R.

Definition setExpectedIcc {num : Type} (s : Settings num) (v : num)
  : Settings num :=
  {| power := power s; alpha := alpha s; iccHamd := iccHamd s;
     iccRetention := iccRetention s; r2Hamd := r2Hamd s;
     r2Retention := r2Retention s;
     patientsPerCluster := patientsPerCluster s;
     nClinicians := nClinicians s; clusterSizeCV := clusterSizeCV s;
     controlAttrition := controlAttrition s;
     treatmentRatio := treatmentRatio s;
     measurementModel := measurementModel s;
     sumScoreReliability := sumScoreReliability s;
     raschReliability := raschReliability s;
     raterVarianceProp := raterVarianceProp s;
     targetIcc := targetIcc s; expectedIcc := v;
     iccClusterCorr := iccClusterCorr s; nFollowups := nFollowups s;
     survivalEfficiency := survivalEfficiency s |}.

(** The positions of a slider: the decimals [m * 10^-k] for [m] from [lo]
    in [count] steps of [step]. *)
Definition slider {num : Type} `{JSNumber num}
    (lo step : Z) (count k : nat) : list num :=
  map (fun i => lit (lo + step * Z.of_nat i) k) (seq 0 count).

(** A list of numbers that never increases, in the sense of [<=]. *)
Fixpoint nonincreasing {num : Type} `{JSNumber num} (l : list num) : bool :=
  match l with
  | a :: (b :: _) as rest => leb b a && nonincreasing rest
  | _ => true
  end.

(** The sample sizes that [findNForMDE] tries, as a list. *)
Definition search_grid : list Z :=
  map (fun i => (400 + 10 * Z.of_nat i)%Z) (seq 0 91).

(** ** The states that the select controls offer *)

(** The options of the select controls and of the radio buttons of the
    settings panel ([App.js] lines 412-483 and 574-607; [part_000] lines
    629-731 and 822-855, where [clusterSizeCV] is added). *)
Section Selects.
Context {num : Type} `{JSNumber num}.











End Selects.






(** * Properties *)

(** ** The z-score tables *)

Section Tables64.
Local Open Scope js_scope.

(** A finite double is equal, as a number, to itself only. *)
Lemma SFeqb_finite (sg : bool) (m : positive) (e : Z) (y : spec_float) :
  SFeqb (S754_finite sg m e) y = true -> y = S754_finite sg m e.
Proof.
  unfold SFeqb, SFcompare.
  destruct y as [sy | sy | | sy my ey].
  - destruct sg; discriminate.
  - destruct sg, sy; discriminate.
  - discriminate.
  - destruct sg, sy; try discriminate;
      (destruct (Z.compare_spec e ey) as [He | He | He]; try discriminate;
       rewrite Pos.compare_cont_spec; cbn [Pos.switch_Eq];
       destruct (Pos.compare_spec m my) as [Hm | Hm | Hm];
       try discriminate; intros _; subst; reflexivity).
Qed.

Lemma SFeqb_finite_refl (sg : bool) (m : positive) (e : Z) :
  SFeqb (S754_finite sg m e) (S754_finite sg m e) = true.
Proof.
  unfold SFeqb, SFcompare.
  destruct sg; rewrite Z.compare_refl, Pos.compare_cont_refl; reflexivity.
Qed.

(** A finite key of a table matches no other double. *)
Lemma key_mismatch (k a : F64.t) (sg : bool) (m : positive) (e : Z) :
  Prim2SF k = S754_finite sg m e -> a <> k -> same_key k a = false.
Proof.
  intros Hk Hne. cbn [same_key F64.binary64]. unfold F64.fsame_key.
  assert (Hnan : PrimFloat.is_nan k = false).
  { unfold PrimFloat.is_nan. rewrite eqb_spec, Hk, SFeqb_finite_refl.
    reflexivity. }
  rewrite Hnan. cbn [andb orb]. rewrite eqb_spec, Hk.
  destruct (SFeqb (S754_finite sg m e) (Prim2SF a)) eqn:E; [| reflexivity].
  exfalso. apply Hne. apply Prim2SF_inj. rewrite Hk.
  now apply SFeqb_finite.
Qed.

(** Skip the keys of a table that the looked-up number is known to differ
    from. *)
Ltac skip_keys :=
  repeat (erewrite key_mismatch;
          [| vm_compute; reflexivity | assumption]).

(** C5.  On doubles, [zAlpha] maps 0.05, 0.025, 0.01 to 1.96, 2.24, 2.58
    and [zBeta] maps 0.70, 0.75, 0.80, 0.85, 0.90 to 0.524, 0.674, 0.842,
    1.036, 1.282; every other number, NaN and the infinities included, is
    mapped to the fallback, 2.24 for [zAlpha] and 0.842 for [zBeta].  The
    lookups are total functions of the number.  The same holds of the
    copies of the two lookups in [part_000]. *)
Theorem z_lookup_exact_and_fallback :
  (AppJs.zAlpha (lit 5 2) = (lit 196 2 : F64.t)
   /\ AppJs.zAlpha (lit 25 3) = (lit 224 2 : F64.t)
   /\ AppJs.zAlpha (lit 1 2) = (lit 258 2 : F64.t))
  /\ (AppJs.zBeta (lit 7 1) = (lit 524 3 : F64.t)
      /\ AppJs.zBeta (lit 75 2) = (lit 674 3 : F64.t)
      /\ AppJs.zBeta (lit 8 1) = (lit 842 3 : F64.t)
      /\ AppJs.zBeta (lit 85 2) = (lit 1036 3 : F64.t)
      /\ AppJs.zBeta (lit 9 1) = (lit 1282 3 : F64.t))
  /\ (forall a : F64.t,
        a <> lit 5 2 -> a <> lit 25 3 -> a <> lit 1 2 ->
        AppJs.zAlpha a = lit 224 2)
  /\ (forall p : F64.t,
        p <> lit 7 1 -> p <> lit 75 2 -> p <> lit 8 1 ->
        p <> lit 85 2 -> p <> lit 9 1 ->
        AppJs.zBeta p = lit 842 3)
  /\ (forall a : F64.t, Part000.zAlpha a = AppJs.zAlpha a)
  /\ (forall p : F64.t, Part000.zBeta p = AppJs.zBeta p).
Proof.
  split; [repeat split; vm_compute; reflexivity |].
  split; [repeat split; vm_compute; reflexivity |].
  split; [| split; [| split; reflexivity]].
  - intros a H1 H2 H3. unfold AppJs.zAlpha. cbn [lookup].
    skip_keys. vm_compute. reflexivity.
  - intros p H1 H2 H3 H4 H5. unfold AppJs.zBeta. cbn [lookup].
    skip_keys. vm_compute. reflexivity.
Qed.

(** The fallback at work: 0.03 is no key of the alpha table and 0.95 is no
    key of the power table. *)
Lemma z_lookup_exact_and_fallback_witness :
  AppJs.zAlpha (lit 3 2 : F64.t) = lit 224 2
  /\ AppJs.zBeta (lit 95 2 : F64.t) = lit 842 3.
Proof.
  destruct z_lookup_exact_and_fallback as (_ & _ & Ha & Hb & _).
  split.
  - apply Ha; intros E; apply (f_equal Prim2SF) in E; vm_compute in E;
      discriminate E.
  - apply Hb; intros E; apply (f_equal Prim2SF) in E; vm_compute in E;
      discriminate E.
Defined.

End Tables64.

(** ** Arithmetic of the extended reals *)

Section XRealFacts.
Import XR.
Local Open Scope R_scope.

Lemma xadd_fin (a b : R) : xadd (Fin a) (Fin b) = Fin (a + b).
Proof. reflexivity. Qed.

Lemma xsub_fin (a b : R) : xsub (Fin a) (Fin b) = Fin (a - b).
Proof. reflexivity. Qed.

Lemma xmul_fin (a b : R) : xmul (Fin a) (Fin b) = Fin (a * b).
Proof. reflexivity. Qed.

Lemma xround_fin (a : R) : xround (Fin a) = Fin (IZR (Zfloor (a + / 2))).
Proof. reflexivity. Qed.

Lemma xdiv_fin (a b : R) : b <> 0 -> xdiv (Fin a) (Fin b) = Fin (a / b).
Proof.
  intros Hb. unfold xdiv. destruct (Req_dec_T b 0); [contradiction | easy].
Qed.

Lemma xdiv_by_zero (a b : R) :
  b = 0 -> xdiv (Fin a) (Fin b) = scale_inf a true.
Proof.
  intros Hb. unfold xdiv. destruct (Req_dec_T b 0); [easy | contradiction].
Qed.

Lemma scale_inf_zero (a : R) (positive : bool) :
  a = 0 -> scale_inf a positive = NaN.
Proof.
  intros ->. unfold scale_inf.
  destruct (Rlt_dec 0 0) as [H | _]; [lra |].
  destruct (Rlt_dec 0 0) as [H | _]; [lra | reflexivity].
Qed.

Lemma scale_inf_pos (a : R) (positive : bool) :
  0 < a -> scale_inf a positive = if positive then PInf else NInf.
Proof.
  intros Ha. unfold scale_inf. destruct (Rlt_dec 0 a); [easy | contradiction].
Qed.

Lemma scale_inf_cases (a : R) (positive : bool) :
  scale_inf a positive = PInf \/ scale_inf a positive = NInf
  \/ scale_inf a positive = NaN.
Proof.
  unfold scale_inf.
  destruct (Rlt_dec 0 a), (Rlt_dec a 0), positive; auto.
Qed.

Lemma xsqrt_fin (a : R) : 0 <= a -> xsqrt (Fin a) = Fin (R_sqrt.sqrt a).
Proof.
  intros Ha. unfold xsqrt. destruct (Rlt_dec a 0); [lra | reflexivity].
Qed.


Lemma xltb_fin (a b : R) : xltb (Fin a) (Fin b) = true <-> a < b.
Proof.
  unfold xltb. destruct (Rlt_dec a b); split; intros; easy.
Qed.

(** Multiplying or dividing by one and taking the root of one are exact,
    also at the special values. *)
Lemma xmul_one_r (x : XR.t) (u : R) : u = 1 -> xmul x (Fin u) = x.
Proof.
  intros ->. destruct x as [a | | |]; cbn; try reflexivity.
  - f_equal. ring.
  - now rewrite scale_inf_pos by lra.
  - now rewrite scale_inf_pos by lra.
Qed.

Lemma xdiv_one_r (x : XR.t) (u : R) : u = 1 -> xdiv x (Fin u) = x.
Proof.
  intros ->. destruct x as [a | | |]; cbn; try reflexivity.
  - destruct (Req_dec_T 1 0) as [H | _]; [lra |]. f_equal. field.
  - destruct (Rlt_dec 1 0); [lra | reflexivity].
  - destruct (Rlt_dec 1 0); [lra | reflexivity].
Qed.

Lemma xsqrt_one (u : R) : u = 1 -> xsqrt (Fin u) = Fin 1.
Proof.
  intros ->. rewrite xsqrt_fin by lra. now rewrite sqrt_1.
Qed.

(** A decimal literal is the rational it denotes. *)
Lemma xlit_int (m : Z) : xlit m 0 = Fin (IZR m).
Proof. unfold xlit. cbn. f_equal. field. Qed.

End XRealFacts.

(** Evaluate the literals of the program on the extended reals. *)
Ltac xlits :=
  cbn [lit XR.xreal] in *; rewrite ?xlit_int; unfold XR.xlit in *;
  repeat match goal with
  | |- context [(10 ^ Z.of_nat ?k)%Z] =>
      let v := eval vm_compute in (10 ^ Z.of_nat k)%Z in
      change (10 ^ Z.of_nat k)%Z with v
  | H : context [(10 ^ Z.of_nat ?k)%Z] |- _ =>
      let v := eval vm_compute in (10 ^ Z.of_nat k)%Z in
      change (10 ^ Z.of_nat k)%Z with v in H
  end.

(** Run the operations of the engine on finite arguments; [tac] proves
    that a divisor is not zero and that a radicand is not negative. *)
Ltac xfin_with tac :=
  cbn [add sub mul div sqrt round lit XR.xreal] in *;
  repeat first
    [ rewrite xadd_fin | rewrite xsub_fin | rewrite xmul_fin
    | rewrite xround_fin
    | rewrite xdiv_fin by tac | rewrite xsqrt_fin by tac ].

(** Decide the tests on reals that guard the cases of the operations. *)
Ltac xtests :=
  repeat match goal with
  | |- context [Req_dec_T ?a ?b] =>
      destruct (Req_dec_T a b); try (exfalso; lra)
  | |- context [Rlt_dec ?a ?b] =>
      destruct (Rlt_dec a b); try (exfalso; lra)
  | |- context [Rle_dec ?a ?b] =>
      destruct (Rle_dec a b); try (exfalso; lra)
  end.

Section TablesXR.
Import XR.
Local Open Scope R_scope.




End TablesXR.

(** ** Arithmetic of the doubles *)

(** Multiplying and dividing a double by one are exact.  Both are proved
    on the executable specification, where a valid finite double is a
    mantissa [m] and an exponent [e] with [e] the canonical exponent of
    [m]; one is the mantissa 2^52 with the exponent -52. *)
Section DoubleFacts.

Lemma Prim2SF_one : Prim2SF (lit 1 0 : F64.t) = one_sf.
Proof. reflexivity. Qed.

Lemma mul_pow52 (m : positive) :
  (m * 4503599627370496)%positive = Pos.iter xO m 52.
Proof. rewrite Pos.mul_comm. reflexivity. Qed.

Lemma digits2_pos_pow52 (m : positive) :
  Z.pos (digits2_pos (Pos.iter xO m 52)) = (Z.pos (digits2_pos m) + 52)%Z.
Proof. cbn [Pos.iter digits2_pos]. lia. Qed.

Lemma shr_pow52 (m : positive) :
  SpecFloat.iter_pos shr_1 52
    {| shr_m := Z.pos (Pos.iter xO m 52); shr_r := false; shr_s := false |}
  = {| shr_m := Z.pos m; shr_r := false; shr_s := false |}.
Proof. reflexivity. Qed.

Lemma fexp_canonical (m : positive) (e : Z) :
  canonical_mantissa prec emax m e = true ->
  fexp prec emax (Z.pos (digits2_pos m) + e) = e.
Proof. unfold canonical_mantissa. intros H. now apply Z.eqb_eq in H. Qed.

(** Rounding leaves a canonical mantissa as it is. *)
Lemma round_exact (s : bool) (m : positive) (e : Z) :
  SpecFloat.bounded prec emax m e = true ->
  binary_round_aux prec emax s (Z.pos m) e loc_Exact = S754_finite s m e.
Proof.
  unfold SpecFloat.bounded. intros H. apply andb_true_iff in H. destruct H as [Hc Hb].
  unfold binary_round_aux, shr_fexp. cbn [Zdigits2 shr_record_of_loc].
  rewrite (fexp_canonical _ _ Hc), Z.sub_diag.
  cbn [shr shr_m loc_of_shr_record round_nearest_even shr_r shr_s].
  cbn [Zdigits2 shr_record_of_loc].
  rewrite (fexp_canonical _ _ Hc), Z.sub_diag. cbn [shr shr_m].
  now rewrite Hb.
Qed.

(** Rounding undoes a shift of the mantissa by one bit. *)
Lemma round_exact_shift1 (s : bool) (m : positive) (e : Z) :
  SpecFloat.bounded prec emax m e = true ->
  binary_round_aux prec emax s (Z.pos m~0) (e - 1) loc_Exact
  = S754_finite s m e.
Proof.
  unfold SpecFloat.bounded. intros H. apply andb_true_iff in H. destruct H as [Hc Hb].
  unfold binary_round_aux, shr_fexp at 1.
  cbn [Zdigits2 shr_record_of_loc digits2_pos].
  replace (Z.pos (Pos.succ (digits2_pos m)) + (e - 1))%Z
    with (Z.pos (digits2_pos m) + e)%Z by lia.
  rewrite (fexp_canonical _ _ Hc).
  replace (e - (e - 1))%Z with 1%Z by lia.
  cbn [shr SpecFloat.iter_pos shr_1 shr_m loc_of_shr_record shr_r shr_s
       round_nearest_even orb].
  replace (e - 1 + 1)%Z with e by lia.
  unfold shr_fexp. cbn [Zdigits2 shr_record_of_loc].
  rewrite (fexp_canonical _ _ Hc), Z.sub_diag. cbn [shr shr_m].
  now rewrite Hb.
Qed.

Lemma SFmul_one_r (x : spec_float) :
  valid_binary x = true -> SFmul prec emax x one_sf = x.
Proof.
  destruct x as [s | s | | s m e]; intros Hv; cbn [SFmul one_sf].
  - now destruct s.
  - now destruct s.
  - reflexivity.
  - cbn [SpecFloat.valid_binary] in Hv.
    assert (Hs : xorb s false = s) by now destruct s.
    rewrite Hs. pose proof Hv as Hv'.
    unfold SpecFloat.bounded in Hv'. apply andb_true_iff in Hv'.
    destruct Hv' as [Hc Hb].
    rewrite mul_pow52.
    unfold binary_round_aux at 1, shr_fexp at 1.
    cbn [Zdigits2 shr_record_of_loc].
    rewrite digits2_pos_pow52.
    replace (Z.pos (digits2_pos m) + 52 + (e + -52))%Z
      with (Z.pos (digits2_pos m) + e)%Z by lia.
    rewrite (fexp_canonical _ _ Hc).
    replace (e - (e + -52))%Z with 52%Z by lia.
    cbn [shr]. rewrite shr_pow52.
    replace (e + -52 + 52)%Z with e by lia.
    cbn [shr_m loc_of_shr_record shr_r shr_s round_nearest_even].
    unfold shr_fexp. cbn [Zdigits2 shr_record_of_loc].
    rewrite (fexp_canonical _ _ Hc), Z.sub_diag. cbn [shr shr_m].
    now rewrite Hb.
Qed.

Lemma div_eucl_exact (a q : Z) :
  (a = 4503599627370496 * q)%Z ->
  Z.div_eucl a 4503599627370496 = (q, 0%Z).
Proof.
  intros Ha.
  pose proof (Z_div_mod a 4503599627370496 eq_refl) as H.
  destruct (Z.div_eucl a 4503599627370496) as [q' r'].
  destruct H as [H1 H2]. f_equal; lia.
Qed.

Lemma SFdiv_one_r (x : spec_float) :
  valid_binary x = true -> SFdiv prec emax x one_sf = x.
Proof.
  destruct x as [s | s | | s m e]; intros Hv; cbn [SFdiv one_sf].
  - now destruct s.
  - now destruct s.
  - reflexivity.
  - cbn [SpecFloat.valid_binary] in Hv.
    assert (Hs : xorb s false = s) by now destruct s.
    rewrite Hs. pose proof Hv as Hv'.
    unfold SpecFloat.bounded in Hv'. apply andb_true_iff in Hv'.
    destruct Hv' as [Hc Hb].
    pose proof (fexp_canonical _ _ Hc) as Hfe.
    unfold SFdiv_core_binary. cbn [Zdigits2].
    change (Z.pos (digits2_pos 4503599627370496)) with 53%Z.
    set (E := fexp prec emax (Z.pos (digits2_pos m) + e - (53 + -52))).
    assert (HE : E = e \/ E = (e - 1)%Z).
    { subst E. revert Hfe. unfold fexp, SpecFloat.emin, prec, emax. lia. }
    destruct HE as [HE | HE]; rewrite HE.
    + replace (Z.min e (e - -52)) with e by lia.
      replace (e - -52 - e)%Z with 52%Z by lia.
      rewrite (@div_eucl_exact (Z.shiftl (Z.pos m) 52) (Z.pos m))
        by (rewrite Z.shiftl_mul_pow2 by lia; lia).
      change (new_location 4503599627370496 0) with loc_Exact.
      apply round_exact. exact Hv.
    + replace (Z.min (e - 1) (e - -52)) with (e - 1)%Z by lia.
      replace (e - -52 - (e - 1))%Z with 53%Z by lia.
      rewrite (@div_eucl_exact (Z.shiftl (Z.pos m) 53) (Z.pos m~0))
        by (rewrite Z.shiftl_mul_pow2 by lia; lia).
      change (new_location 4503599627370496 0) with loc_Exact.
      apply round_exact_shift1. exact Hv.
Qed.

Theorem fmul_one_r (x : F64.t) : mul x (lit 1 0) = x.
Proof.
  cbn [mul F64.binary64]. apply Prim2SF_inj.
  rewrite mul_spec, Prim2SF_one.
  apply SFmul_one_r, Prim2SF_valid.
Qed.

Theorem fdiv_one_r (x : F64.t) : div x (lit 1 0) = x.
Proof.
  cbn [div F64.binary64]. apply Prim2SF_inj.
  rewrite div_spec, Prim2SF_one.
  apply SFdiv_one_r, Prim2SF_valid.
Qed.

Lemma fsqrt_one : sqrt (lit 1 0 : F64.t) = lit 1 0.
Proof. reflexivity. Qed.

(** The factor for unequal cluster sizes is one when the sizes are equal. *)
Lemma cv_factor_one64 :
  add (lit 1 0) (mul (lit 0 0) (lit 0 0)) = (lit 1 0 : F64.t).
Proof. reflexivity. Qed.

End DoubleFacts.

(** ** The measurement-model variance multiplier *)

Section Multiplier64.
Local Open Scope js_scope.

Lemma nan_mul_l (x : F64.t) : PrimFloat.mul PrimFloat.nan x = PrimFloat.nan.
Proof. apply Prim2SF_inj. rewrite mul_spec. reflexivity. Qed.

(** With the reliability upgrade active and a sum-score reliability of 1,
    the error of the sum score is +0 and the reduction term is a quotient
    by that zero: whatever the Rasch reliability, the reduction times the
    error is NaN, and so is the multiplier. *)
Lemma reduction_term_nan (raschReliability : F64.t) :
  let sumScoreError := lit 1 0 - lit 1 0 in
  let raschError := lit 1 0 - raschReliability in
  ((sumScoreError - raschError) / sumScoreError) * sumScoreError
  = (PrimFloat.nan : F64.t).
Proof.
  cbn zeta. cbn [sub mul div lit F64.binary64].
  apply Prim2SF_inj. rewrite mul_spec, div_spec, sub_spec.
  change (Prim2SF (PrimFloat.sub (F64.flit 1 0) (F64.flit 1 0)))
    with (S754_zero false).
  generalize (Prim2SF (PrimFloat.sub (F64.flit 1 0) raschReliability)).
  intros e. destruct e as [[|] | [|] | | [|] m e]; reflexivity.
Qed.

Lemma AppJs_multiplier_nan64 (useMFRM : bool)
    (raschReliability raterVarianceProp : F64.t) :
  AppJs.measurementVarianceMultiplier true useMFRM (lit 1 0)
    raschReliability raterVarianceProp = PrimFloat.nan.
Proof.
  unfold AppJs.measurementVarianceMultiplier.
  pose proof (reduction_term_nan raschReliability) as Hnan.
  cbn zeta in Hnan. rewrite Hnan.
  change (lit 1 0 * (lit 1 0 - PrimFloat.nan) : F64.t) with PrimFloat.nan.
  destruct useMFRM; [apply nan_mul_l | reflexivity].
Qed.

Lemma Part000_multiplier_nan64 (useMFRM : bool)
    (raschReliability raterVarianceProp : F64.t) :
  Part000.measurementVarianceMultiplier true useMFRM (lit 1 0)
    raschReliability raterVarianceProp = PrimFloat.nan.
Proof.
  unfold Part000.measurementVarianceMultiplier.
  pose proof (reduction_term_nan raschReliability) as Hnan.
  cbn zeta in Hnan. rewrite Hnan.
  change (lit 1 0 * (lit 1 0 - PrimFloat.nan) : F64.t) with PrimFloat.nan.
  destruct useMFRM; [apply nan_mul_l | reflexivity].
Qed.

(** There is no guard: at the sum-score reliability 1, with the default
    Rasch reliability 0.91 and rater variance 0.07, the multiplier of the
    Rasch model is not finite but NaN, in both source files. *)
Lemma multiplier_unguarded_at_one :
  PrimFloat.is_finite
    (AppJs.measurementVarianceMultiplier (AppJs.useRasch "rasch")
       (AppJs.useMFRM "rasch") (lit 1 0) (lit 91 2) (lit 7 2)) = false
  /\ PrimFloat.is_nan
       (AppJs.measurementVarianceMultiplier (AppJs.useRasch "rasch")
          (AppJs.useMFRM "rasch") (lit 1 0) (lit 91 2) (lit 7 2)) = true
  /\ PrimFloat.is_nan
       (Part000.measurementVarianceMultiplier (Part000.useRasch "rasch")
          (Part000.useMFRM "rasch") (lit 1 0) (lit 91 2) (lit 7 2)) = true.
Proof. repeat split; vm_compute; reflexivity. Qed.

End Multiplier64.

Section MultiplierXR.
Import XR.
Local Open Scope R_scope.

(** The same on the extended reals. *)
Lemma reduction_term_nan_xr (raschReliability : XR.t) :
  let sumScoreError := sub (lit 1 0) (lit 1 0) in
  let raschError := sub (lit 1 0) raschReliability in
  mul (div (sub sumScoreError raschError) sumScoreError) sumScoreError
  = NaN.
Proof.
  cbn zeta. xlits. cbn [sub mul div xreal].
  generalize (xsub (Fin 1) raschReliability). intros e.
  change (xsub (Fin 1) (Fin 1)) with (Fin (1 - 1)).
  assert (Hz : 1 - 1 = 0) by lra.
  destruct e as [b | | |]; cbn [xsub xadd xopp].
  - rewrite xdiv_by_zero by exact Hz.
    match goal with
    | |- context [scale_inf ?a true] =>
        destruct (scale_inf_cases a true) as [-> | [-> | ->]]
    end; cbn [xmul]; try reflexivity; now apply scale_inf_zero.
  - cbn [xdiv]. destruct (Rlt_dec (1 - 1) 0); cbn [xmul];
      now apply scale_inf_zero.
  - cbn [xdiv]. destruct (Rlt_dec (1 - 1) 0); cbn [xmul];
      now apply scale_inf_zero.
  - reflexivity.
Qed.

Lemma AppJs_multiplier_nan_xr (useMFRM : bool)
    (raschReliability raterVarianceProp : XR.t) :
  AppJs.measurementVarianceMultiplier true useMFRM (lit 1 0)
    raschReliability raterVarianceProp = NaN.
Proof.
  unfold AppJs.measurementVarianceMultiplier.
  pose proof (reduction_term_nan_xr raschReliability) as Hnan.
  cbn zeta in Hnan. rewrite Hnan.
  destruct useMFRM; cbn; reflexivity.
Qed.

Lemma Part000_multiplier_nan_xr (useMFRM : bool)
    (raschReliability raterVarianceProp : XR.t) :
  Part000.measurementVarianceMultiplier true useMFRM (lit 1 0)
    raschReliability raterVarianceProp = NaN.
Proof.
  unfold Part000.measurementVarianceMultiplier.
  pose proof (reduction_term_nan_xr raschReliability) as Hnan.
  cbn zeta in Hnan. rewrite Hnan.
  destruct useMFRM; cbn; reflexivity.
Qed.

Lemma AppJs_multiplier_fin (useRasch useMFRM : bool) (ssr rr rvp : R) :
  ssr <> 1 ->
  AppJs.measurementVarianceMultiplier useRasch useMFRM
    (Fin ssr) (Fin rr) (Fin rvp)
  = Fin (multiplier_value useRasch useMFRM ssr rr rvp).
Proof.
  intros Hssr. unfold AppJs.measurementVarianceMultiplier, multiplier_value.
  xlits. destruct useRasch, useMFRM; xfin_with lra; f_equal; field; lra.
Qed.

Lemma Part000_multiplier_fin (useRasch useMFRM : bool) (ssr rr rvp : R) :
  ssr <> 1 ->
  Part000.measurementVarianceMultiplier useRasch useMFRM
    (Fin ssr) (Fin rr) (Fin rvp)
  = Fin (multiplier_value useRasch useMFRM ssr rr rvp).
Proof.
  intros Hssr. unfold Part000.measurementVarianceMultiplier, multiplier_value.
  xlits. destruct useRasch, useMFRM; xfin_with lra; f_equal; field; lra.
Qed.

End MultiplierXR.

(** C4, as the code has it.  Neither source file guards the division by
    [sumScoreError]: with the reliability upgrade active and
    [sumScoreReliability = 1] the multiplier is NaN, for every Rasch
    reliability and rater variance, with and without the rater adjustment,
    on doubles and on the extended reals alike; no error is signalled.  For
    finite inputs with [sumScoreReliability <> 1] the multiplier is the
    finite real [(1 - (raschReliability - sumScoreReliability))], times
    [1 - raterVarianceProp] under the rater adjustment. *)
Theorem multiplier_nan_at_reliability_one :
  (forall (useMFRM : bool) (raschReliability raterVarianceProp : F64.t),
      AppJs.measurementVarianceMultiplier true useMFRM (lit 1 0)
        raschReliability raterVarianceProp = PrimFloat.nan
      /\ Part000.measurementVarianceMultiplier true useMFRM (lit 1 0)
           raschReliability raterVarianceProp = PrimFloat.nan)
  /\ (forall (useMFRM : bool) (raschReliability raterVarianceProp : XR.t),
        AppJs.measurementVarianceMultiplier true useMFRM (lit 1 0)
          raschReliability raterVarianceProp = XR.NaN
        /\ Part000.measurementVarianceMultiplier true useMFRM (lit 1 0)
             raschReliability raterVarianceProp = XR.NaN)
  /\ (forall (useMFRM : bool) (ssr rr rvp : R),
        ssr <> 1%R ->
        AppJs.measurementVarianceMultiplier true useMFRM
          (XR.Fin ssr) (XR.Fin rr) (XR.Fin rvp)
        = XR.Fin (multiplier_value true useMFRM ssr rr rvp)
        /\ Part000.measurementVarianceMultiplier true useMFRM
             (XR.Fin ssr) (XR.Fin rr) (XR.Fin rvp)
           = XR.Fin (multiplier_value true useMFRM ssr rr rvp)).
Proof.
  split; [| split].
  - intros. split.
    + apply AppJs_multiplier_nan64.
    + apply Part000_multiplier_nan64.
  - intros. split.
    + apply AppJs_multiplier_nan_xr.
    + apply Part000_multiplier_nan_xr.
  - intros useMFRM ssr rr rvp Hssr. split.
    + now apply AppJs_multiplier_fin.
    + now apply Part000_multiplier_fin.
Qed.

(** At the default reliabilities 0.86 and 0.91 the Rasch multiplier is the
    real 0.95. *)
Lemma multiplier_nan_at_reliability_one_witness :
  (86 / 100 <> 1)%R
  /\ AppJs.measurementVarianceMultiplier true false
       (XR.Fin (86 / 100)) (XR.Fin (91 / 100)) (XR.Fin (7 / 100))
     = XR.Fin (multiplier_value true false (86 / 100) (91 / 100) (7 / 100)).
Proof.
  assert (H : (86 / 100 <> 1)%R) by lra.
  split; [exact H |].
  exact (proj1 (proj2 (proj2 multiplier_nan_at_reliability_one)
                  false (86 / 100)%R (91 / 100)%R (7 / 100)%R H)).
Defined.

(** ** The end-to-end example of the severity calculator *)

Section Example.
Local Open Scope js_scope.

Lemma example_counts64 (rest : Settings F64.t) :
  let r := AppJs.calcHamdMDE (example_settings rest) (lit 1000 0) in
  Hamd.nClusters r = lit 100 0
  /\ Hamd.nTreatmentClusters r = lit 75 0
  /\ Hamd.nControlClusters r = lit 25 0
  /\ Hamd.nCompleters r = lit 700 0
  /\ Hamd.mde r = example_closed_form
  /\ Hamd.mde r = 0x1.8c78807852767p+0%float.
Proof. repeat split; vm_compute; reflexivity. Qed.


Import XR.

Lemma zAlpha_example_xr : AppJs.zAlpha (lit 25 3 : XR.t) = Fin (224 / 100).
Proof.
  unfold AppJs.zAlpha, or_else. cbn [lookup same_key truthy xreal].
  xlits. unfold xsame_key, xtruthy. xtests. reflexivity.
Qed.

Lemma zBeta_example_xr : AppJs.zBeta (lit 8 1 : XR.t) = Fin (842 / 1000).
Proof.
  unfold AppJs.zBeta, or_else. cbn [lookup same_key truthy xreal].
  xlits. unfold xsame_key, xtruthy. xtests. reflexivity.
Qed.

(** Replace the integer part of a numeral expression by its value [k]. *)
Ltac floor_is k :=
  match goal with
  | |- context [Zfloor ?e] => rewrite (@Zfloor_eq k e) by lra
  end.

Lemma example_counts_xr (rest : Settings XR.t) :
  let r := AppJs.calcHamdMDE (example_settings rest) (lit 1000 0) in
  Hamd.nClusters r = Fin 100
  /\ Hamd.nTreatmentClusters r = Fin 75
  /\ Hamd.nControlClusters r = Fin 25
  /\ Hamd.nCompleters r = Fin 700
  /\ Hamd.mde r = example_closed_form.
Proof.
  cbn zeta. unfold AppJs.calcHamdMDE, AppJs.calcHamdMDE_locals.
  cbn [Hamd.nClusters Hamd.nTreatmentClusters Hamd.nControlClusters
       Hamd.nCompleters Hamd.mde HamdLocals.nClusters
       HamdLocals.nTreatmentClusters HamdLocals.nControlClusters
       HamdLocals.nTreatmentPatients HamdLocals.nControlPatients
       HamdLocals.mde].
  cbn [example_settings patientsPerCluster treatmentRatio controlAttrition
       r2Hamd iccHamd alpha power].
  assert (E1 : round (div (lit 1000 0) (lit 10 0)) = Fin 100).
  { xlits. xfin_with lra. floor_is 100%Z. reflexivity. }
  rewrite E1.
  assert (E2 : round (mul (Fin 100) (div (lit 3 0) (add (lit 3 0) (lit 1 0))))
               = Fin 75).
  { xlits. xfin_with lra. floor_is 75%Z. reflexivity. }
  rewrite E2.
  rewrite zAlpha_example_xr, zBeta_example_xr.
  change (AppJs.multiplierOf (example_settings rest)) with (lit 1 0 : XR.t).
  unfold example_closed_form, Spec.mde, Spec.netVariance, Spec.baseVariance,
    Spec.sigma2Adjusted, Spec.designEffect, Spec.nHarmonic, Spec.completers.
  xlits. xfin_with lra.
  split; [reflexivity |]. split; [reflexivity |].
  split; [f_equal; lra |].
  split; [floor_is 700%Z; reflexivity |].
  f_equal. f_equal. f_equal. lra.
Qed.

(** The closed form as a real number: 3.082 times the root of
    2 * 33.1418... / 262.5. *)
Lemma example_closed_form_xr :
  (example_closed_form : XR.t)
  = Fin (3082 / 1000
         * R_sqrt.sqrt (2 * (473928 / 14300) / (2625 / 10)))%R.
Proof.
  unfold example_closed_form, Spec.mde, Spec.netVariance, Spec.baseVariance,
    Spec.sigma2Adjusted, Spec.designEffect, Spec.nHarmonic, Spec.completers.
  xlits. xfin_with lra.
  f_equal. f_equal; [lra |]. f_equal. lra.
Qed.

Lemma example_counts64_part000 (rest : Settings F64.t) :
  let r := Part000.calcHamdMDE
             (setClusterSizeCV (example_settings rest) (lit 0 0))
             (lit 1000 0) in
  Hamd.nClusters r = lit 100 0
  /\ Hamd.nTreatmentClusters r = lit 75 0
  /\ Hamd.nControlClusters r = lit 25 0
  /\ Hamd.nCompleters r = lit 700 0
  /\ Hamd.mde r = example_closed_form.
Proof. repeat split; vm_compute; reflexivity. Qed.

End Example.

(** C1.  For the configuration of the example (10 patients per cluster,
    allocation 3:1, attrition 0.30, ICC 0.04, R2 0.35, power 0.80, alpha
    0.025, sum-score model, whatever the other parameters) and 1000
    patients, [calcHamdMDE] of [App.js] returns 100 clusters, 75 in the
    treatment arm and 25 in the control arm, 700 completers, and the MDE of
    the closed form [(zAlpha + zBeta) * sqrt (2 * netVariance / nHarmonic)]
    with [severitySD = 7], [ipcwVIF = 1.2], [repeatedMeasuresGain = 1.43]:
    on doubles the two are the same double, 1.5487137120967078
    (0x1.8c78807852767p+0), and on the reals they are the same real
    number, 3.082 * sqrt (2 * (473928 / 14300) / 262.5).  With equal
    cluster sizes [part_000] returns the same. *)
Theorem severity_example_exact :
  (forall rest : Settings F64.t,
     let r := AppJs.calcHamdMDE (example_settings rest) (lit 1000 0) in
     Hamd.nClusters r = lit 100 0
     /\ Hamd.nTreatmentClusters r = lit 75 0
     /\ Hamd.nControlClusters r = lit 25 0
     /\ Hamd.nCompleters r = lit 700 0
     /\ Hamd.mde r = example_closed_form
     /\ Hamd.mde r = 0x1.8c78807852767p+0%float)
  /\ (forall rest : Settings F64.t,
        let r := Part000.calcHamdMDE
                   (setClusterSizeCV (example_settings rest) (lit 0 0))
                   (lit 1000 0) in
        Hamd.nClusters r = lit 100 0
        /\ Hamd.nTreatmentClusters r = lit 75 0
        /\ Hamd.nControlClusters r = lit 25 0
        /\ Hamd.nCompleters r = lit 700 0
        /\ Hamd.mde r = example_closed_form)
  /\ (forall rest : Settings XR.t,
        let r := AppJs.calcHamdMDE (example_settings rest) (lit 1000 0) in
        Hamd.nClusters r = XR.Fin 100
        /\ Hamd.nTreatmentClusters r = XR.Fin 75
        /\ Hamd.nControlClusters r = XR.Fin 25
        /\ Hamd.nCompleters r = XR.Fin 700
        /\ Hamd.mde r = example_closed_form
        /\ Hamd.mde r
           = XR.Fin (3082 / 1000
                     * R_sqrt.sqrt (2 * (473928 / 14300) / (2625 / 10)))%R).
Proof.
  split; [exact example_counts64 |].
  split; [exact example_counts64_part000 |].
  intros rest. cbn zeta.
  destruct (example_counts_xr rest) as (H1 & H2 & H3 & H4 & H5).
  repeat (split; [assumption |]).
  rewrite H5. apply example_closed_form_xr.
Qed.

(** ** The two source files side by side *)

Section XRealUnits.
Import XR.
Local Open Scope R_scope.

Lemma cv_factor_one_xr :
  add (lit 1 0) (mul (lit 0 0) (lit 0 0)) = (lit 1 0 : XR.t).
Proof. xlits. xfin_with lra. f_equal. lra. Qed.

Lemma xmul_lit_one_r (x : XR.t) : mul x (lit 1 0) = x.
Proof. xlits. now apply xmul_one_r. Qed.

Lemma xdiv_lit_one_r (x : XR.t) : div x (lit 1 0) = x.
Proof. xlits. now apply xdiv_one_r. Qed.

Lemma xsqrt_lit_one : sqrt (lit 1 0 : XR.t) = lit 1 0.
Proof. xlits. now apply xsqrt_one. Qed.

End XRealUnits.

(** The comparison of the two engines needs two facts of the arithmetic
    only: [1 + 0 * 0] evaluates to [1], and multiplying by [1] changes
    nothing.  Both hold on doubles and on the extended reals. *)
Section Agreement.
Context {num : Type} `{JSNumber num}.
Hypothesis cv_factor_one :
  add (lit 1 0) (mul (lit 0 0) (lit 0 0)) = lit 1 0.
Hypothesis mul_one_r : forall x : num, mul x (lit 1 0) = x.

Lemma Part000_AppJs_hamd_locals (s : Settings num) (totalN : num) :
  clusterSizeCV s = lit 0 0 ->
  Part000.calcHamdMDE_locals s totalN = AppJs.calcHamdMDE_locals s totalN.
Proof using cv_factor_one mul_one_r.
  intros Hcv. unfold Part000.calcHamdMDE_locals, AppJs.calcHamdMDE_locals.
  rewrite Hcv, cv_factor_one, mul_one_r. reflexivity.
Qed.

Lemma Part000_AppJs_hamd (s : Settings num) (totalN : num) :
  clusterSizeCV s = lit 0 0 ->
  Part000.calcHamdMDE s totalN = AppJs.calcHamdMDE s totalN.
Proof using cv_factor_one mul_one_r.
  intros Hcv. unfold Part000.calcHamdMDE, AppJs.calcHamdMDE.
  rewrite Part000_AppJs_hamd_locals by exact Hcv. reflexivity.
Qed.

Lemma Part000_AppJs_retention (s : Settings num) (totalN : num) :
  clusterSizeCV s = lit 0 0 ->
  Part000.calcRetentionMDE s totalN = AppJs.calcRetentionMDE s totalN.
Proof using cv_factor_one mul_one_r.
  intros Hcv. unfold Part000.calcRetentionMDE, AppJs.calcRetentionMDE.
  rewrite Hcv, cv_factor_one, mul_one_r. reflexivity.
Qed.


(** [App.js] never reads [clusterSizeCV]. *)
Lemma AppJs_hamd_ignores_cv (s : Settings num) (v totalN : num) :
  AppJs.calcHamdMDE (setClusterSizeCV s v) totalN = AppJs.calcHamdMDE s totalN.
Proof using Type. reflexivity. Qed.

End Agreement.

(** C10.  With [clusterSizeCV = 0] the engine of [part_000] returns the
    same objects as the engine of [App.js] from [calcHamdMDE],
    [calcRetentionMDE] and [calcIccValidation], for every state and every
    [totalN]: on doubles bit for bit, and on the extended reals, NaN and
    the infinities included.  On every model of the numbers the design
    effect of the severity calculator of [part_000] is the one of [App.js]
    times [1 + clusterSizeCV^2]. *)
Theorem engines_agree_at_equal_cluster_sizes :
  (forall (s : Settings F64.t) (totalN : F64.t),
     clusterSizeCV s = lit 0 0 ->
     Part000.calcHamdMDE s totalN = AppJs.calcHamdMDE s totalN
     /\ Part000.calcRetentionMDE s totalN = AppJs.calcRetentionMDE s totalN
     /\ Part000.calcIccValidation s totalN
        = AppJs.calcIccValidation s totalN)
  /\ (forall (s : Settings XR.t) (totalN : XR.t),
        clusterSizeCV s = lit 0 0 ->
        Part000.calcHamdMDE s totalN = AppJs.calcHamdMDE s totalN
        /\ Part000.calcRetentionMDE s totalN
           = AppJs.calcRetentionMDE s totalN
        /\ Part000.calcIccValidation s totalN
           = AppJs.calcIccValidation s totalN)
  /\ (forall (num : Type) (JSN : JSNumber num) (s : Settings num)
        (totalN : num),
        HamdLocals.designEffect (Part000.calcHamdMDE_locals s totalN)
        = mul (HamdLocals.designEffect (AppJs.calcHamdMDE_locals s totalN))
            (add (lit 1 0) (mul (clusterSizeCV s) (clusterSizeCV s)))).
Proof.
  split; [| split].
  - intros s totalN Hcv.
    split; [| split].
    + now apply (Part000_AppJs_hamd cv_factor_one64 fmul_one_r).
    + now apply (Part000_AppJs_retention cv_factor_one64 fmul_one_r).
    + reflexivity.
  - intros s totalN Hcv.
    split; [| split].
    + now apply (Part000_AppJs_hamd cv_factor_one_xr xmul_lit_one_r).
    + now apply (Part000_AppJs_retention cv_factor_one_xr xmul_lit_one_r).
    + reflexivity.
  - reflexivity.
Qed.

(** The default state has equal cluster sizes. *)
Lemma engines_agree_at_equal_cluster_sizes_witness :
  Part000.calcHamdMDE (defaults : Settings F64.t) (lit 1000 0)
  = AppJs.calcHamdMDE defaults (lit 1000 0).
Proof.
  exact (proj1 (proj1 engines_agree_at_equal_cluster_sizes
                  (defaults : Settings F64.t) (lit 1000 0) eq_refl)).
Defined.

(** ** The design effect of the severity calculator *)

(** C3.  For every state and every [totalN], on every model of the
    numbers, the design effect bound in the body of [calcHamdMDE] of
    [part_000] is
    [(1 + (patientsPerCluster * (1 - controlAttrition) - 1) * iccHamd)
     * (1 + clusterSizeCV * clusterSizeCV)],
    the design effect of the specification, and it is this value that
    enters the base variance and, through it, the MDE.  [App.js] has no
    [clusterSizeCV]: its design effect is the first factor, which is the
    value of the same formula for equal cluster sizes, [clusterSizeCV = 0],
    on doubles and on the extended reals. *)
Theorem design_effect_inflated_by_cluster_size_cv :
  (forall (num : Type) (JSN : JSNumber num) (s : Settings num) (totalN : num),
     let l := Part000.calcHamdMDE_locals s totalN in
     HamdLocals.designEffect l
     = Spec.designEffect (patientsPerCluster s) (controlAttrition s)
         (iccHamd s) (clusterSizeCV s)
     /\ HamdLocals.designEffect l
        = mul (add (lit 1 0)
                 (mul (sub (mul (patientsPerCluster s)
                              (sub (lit 1 0) (controlAttrition s)))
                         (lit 1 0))
                    (iccHamd s)))
            (add (lit 1 0) (mul (clusterSizeCV s) (clusterSizeCV s)))
     /\ HamdLocals.baseVariance l
        = Spec.baseVariance (HamdLocals.sigma2Adj l)
            (HamdLocals.designEffect l) (lit 12 1) (lit 143 2)
     /\ Hamd.mde (Part000.calcHamdMDE s totalN)
        = Spec.mde (Part000.zAlpha (alpha s)) (Part000.zBeta (power s))
            (Spec.netVariance (HamdLocals.baseVariance l)
               (Part000.multiplierOf s))
            (HamdLocals.nHarmonic l))
  /\ (forall (s : Settings F64.t) (totalN : F64.t),
        clusterSizeCV s = lit 0 0 ->
        HamdLocals.designEffect (AppJs.calcHamdMDE_locals s totalN)
        = Spec.designEffect (patientsPerCluster s) (controlAttrition s)
            (iccHamd s) (clusterSizeCV s))
  /\ (forall (s : Settings XR.t) (totalN : XR.t),
        clusterSizeCV s = lit 0 0 ->
        HamdLocals.designEffect (AppJs.calcHamdMDE_locals s totalN)
        = Spec.designEffect (patientsPerCluster s) (controlAttrition s)
            (iccHamd s) (clusterSizeCV s)).
Proof.
  split; [| split].
  - intros num JSN s totalN. cbn zeta. repeat split; reflexivity.
  - intros s totalN Hcv.
    rewrite <- (Part000_AppJs_hamd_locals cv_factor_one64 fmul_one_r)
      by exact Hcv.
    reflexivity.
  - intros s totalN Hcv.
    rewrite <- (Part000_AppJs_hamd_locals cv_factor_one_xr xmul_lit_one_r)
      by exact Hcv.
    reflexivity.
Qed.

(** The default state of [App.js], where cluster sizes are equal. *)
Lemma design_effect_inflated_by_cluster_size_cv_witness :
  HamdLocals.designEffect
    (AppJs.calcHamdMDE_locals (defaults : Settings F64.t) (lit 1000 0))
  = Spec.designEffect (lit 10 0) (lit 3 1) (lit 4 2) (lit 0 0).
Proof.
  exact (proj1 (proj2 design_effect_inflated_by_cluster_size_cv)
           (defaults : Settings F64.t) (lit 1000 0) eq_refl).
Defined.

(** ** The curve: [powerData] *)

Section Curve.
Context {num : Type} `{JSNumber num}.
Variable s : Settings num.

(** One turn of each loop. *)
Lemma AppJs_powerData_loop_step (n : Z) (data : list (Point.t num)) :
  AppJs.powerData_loop s n data =
  if Z_le_gt_dec n 1300
  then AppJs.powerData_loop s (n + 50) (data ++ [AppJs.powerData_point s n])
  else data.
Proof.
  rewrite AppJs.powerData_loop_equation_1.
  destruct (Z_le_gt_dec n 1300); reflexivity.
Qed.

Lemma Part000_powerData_loop_step (n : Z) (data : list (Point.t num)) :
  Part000.powerData_loop s n data =
  if Z_le_gt_dec n 1300
  then Part000.powerData_loop s (n + 50)
         (data ++ [Part000.powerData_point s n])
  else data.
Proof.
  rewrite Part000.powerData_loop_equation_1.
  destruct (Z_le_gt_dec n 1300); reflexivity.
Qed.

(** The loop only appends to the array built so far, one point for each
    counter value up to 1300. *)
Lemma AppJs_powerData_loop_sweep (fuel : nat) :
  forall (n : Z) (data : list (Point.t num)),
    steps_left n <= fuel ->
    AppJs.powerData_loop s n data
    = data ++ map (AppJs.powerData_point s) (sweep (S fuel) n).
Proof.
  induction fuel as [| fuel IH]; intros n data Hfuel;
    rewrite AppJs_powerData_loop_step; cbn [sweep];
    destruct (Z_le_gt_dec n 1300) as [Hle | Hgt].
  - unfold steps_left in Hfuel. lia.
  - now rewrite app_nil_r.
  - rewrite IH by (pose proof (@steps_left_decr n 50 Hle); lia).
    rewrite <- app_assoc. reflexivity.
  - now rewrite app_nil_r.
Qed.

Lemma Part000_powerData_loop_sweep (fuel : nat) :
  forall (n : Z) (data : list (Point.t num)),
    steps_left n <= fuel ->
    Part000.powerData_loop s n data
    = data ++ map (Part000.powerData_point s) (sweep (S fuel) n).
Proof.
  induction fuel as [| fuel IH]; intros n data Hfuel;
    rewrite Part000_powerData_loop_step; cbn [sweep];
    destruct (Z_le_gt_dec n 1300) as [Hle | Hgt].
  - unfold steps_left in Hfuel. lia.
  - now rewrite app_nil_r.
  - rewrite IH by (pose proof (@steps_left_decr n 50 Hle); lia).
    rewrite <- app_assoc. reflexivity.
  - now rewrite app_nil_r.
Qed.

Lemma sweep_400 : sweep (S (steps_left 400)) 400 = curve_grid.
Proof. vm_compute. reflexivity. Qed.

Lemma curve_grid_ascending : StronglySorted Z.lt curve_grid.
Proof.
  unfold curve_grid. cbn [seq map].
  repeat (apply SSorted_cons;
          [| repeat (apply Forall_cons; [cbn; lia |]); apply Forall_nil]).
  apply SSorted_nil.
Qed.

(** C8.  In both source files the curve generator sweeps 400, 450, ..., 1300:
    [powerData] holds one point for each of these sample sizes, in this
    order, which is strictly ascending; that makes
    floor((1300 - 400) / 50) + 1 = 19 points. *)
Theorem powerData_default_sweep :
  AppJs.powerData s = map (AppJs.powerData_point s) curve_grid
  /\ Part000.powerData s = map (Part000.powerData_point s) curve_grid
  /\ map (@Point.n num) (AppJs.powerData s)
     = [400; 450; 500; 550; 600; 650; 700; 750; 800; 850; 900; 950; 1000;
        1050; 1100; 1150; 1200; 1250; 1300]%Z
  /\ map (@Point.n num) (Part000.powerData s)
     = map (@Point.n num) (AppJs.powerData s)
  /\ StronglySorted Z.lt (map (@Point.n num) (AppJs.powerData s))
  /\ Z.of_nat (List.length (AppJs.powerData s)) = ((1300 - 400) / 50 + 1)%Z
  /\ List.length (Part000.powerData s) = 19
  /\ List.length (AppJs.powerData s) = 19.
Proof.
  assert (HA : AppJs.powerData s = map (AppJs.powerData_point s) curve_grid).
  { unfold AppJs.powerData.
    rewrite (@AppJs_powerData_loop_sweep (steps_left 400)) by lia.
    rewrite sweep_400. reflexivity. }
  assert (HP : Part000.powerData s
               = map (Part000.powerData_point s) curve_grid).
  { unfold Part000.powerData.
    rewrite (@Part000_powerData_loop_sweep (steps_left 400)) by lia.
    rewrite sweep_400. reflexivity. }
  assert (HnA : map (@Point.n num) (AppJs.powerData s) = curve_grid).
  { rewrite HA, map_map. cbn [AppJs.powerData_point Point.n].
    apply map_id. }
  assert (HnP : map (@Point.n num) (Part000.powerData s) = curve_grid).
  { rewrite HP, map_map. cbn [Part000.powerData_point Point.n].
    apply map_id. }
  split; [exact HA |]. split; [exact HP |].
  split; [rewrite HnA; reflexivity |].
  split; [now rewrite HnA, HnP |].
  split; [rewrite HnA; apply curve_grid_ascending |].
  rewrite HA, HP, !length_map. repeat split.
Qed.

End Curve.

(** ** The retention calculator *)

(** Without a survival gain the last step of the calculator divides by the
    root of one.  All that is needed of the arithmetic is that the root of
    [1] is [1] and that dividing by [1] changes nothing, which holds on
    doubles and on the extended reals. *)
Section BinaryMDE.
Context {num : Type} `{JSNumber num}.
Hypothesis sqrt_one : sqrt (lit 1 0) = lit 1 0.
Hypothesis div_one_r : forall x : num, div x (lit 1 0) = x.

Lemma AppJs_binaryMDE (s : Settings num) (totalN : num) :
  Retention.binaryMDE (AppJs.calcRetentionMDE s totalN)
  = Retention.mde
      (AppJs.calcRetentionMDE (setSurvivalEfficiency s (lit 1 0)) totalN).
Proof using sqrt_one div_one_r.
  unfold AppJs.calcRetentionMDE.
  cbn [Retention.binaryMDE Retention.mde setSurvivalEfficiency
       survivalEfficiency patientsPerCluster treatmentRatio iccRetention
       controlAttrition r2Retention alpha power].
  rewrite sqrt_one, div_one_r. reflexivity.
Qed.

Lemma Part000_binaryMDE (s : Settings num) (totalN : num) :
  Retention.binaryMDE (Part000.calcRetentionMDE s totalN)
  = Retention.mde
      (Part000.calcRetentionMDE (setSurvivalEfficiency s (lit 1 0)) totalN).
Proof using sqrt_one div_one_r.
  unfold Part000.calcRetentionMDE.
  cbn [Retention.binaryMDE Retention.mde setSurvivalEfficiency
       survivalEfficiency patientsPerCluster treatmentRatio iccRetention
       controlAttrition r2Retention alpha power clusterSizeCV].
  rewrite sqrt_one, div_one_r. reflexivity.
Qed.

End BinaryMDE.

(** C6.  In both source files, for every state and every [totalN], the
    field [binaryMDE] of the object returned by [calcRetentionMDE] is the
    field [mde] that the call returns once [survivalEfficiency] is set to 1
    and nothing else is changed: on doubles the two are the same double
    (or both NaN), and on the extended reals the same number. *)
Theorem binaryMDE_is_mde_without_survival_gain :
  (forall (s : Settings F64.t) (totalN : F64.t),
     Retention.binaryMDE (AppJs.calcRetentionMDE s totalN)
     = Retention.mde
         (AppJs.calcRetentionMDE (setSurvivalEfficiency s (lit 1 0)) totalN)
     /\ Retention.binaryMDE (Part000.calcRetentionMDE s totalN)
        = Retention.mde
            (Part000.calcRetentionMDE (setSurvivalEfficiency s (lit 1 0))
               totalN))
  /\ (forall (s : Settings XR.t) (totalN : XR.t),
        Retention.binaryMDE (AppJs.calcRetentionMDE s totalN)
        = Retention.mde
            (AppJs.calcRetentionMDE (setSurvivalEfficiency s (lit 1 0))
               totalN)
        /\ Retention.binaryMDE (Part000.calcRetentionMDE s totalN)
           = Retention.mde
               (Part000.calcRetentionMDE (setSurvivalEfficiency s (lit 1 0))
                  totalN)).
Proof.
  split; intros s totalN; split.
  - apply (AppJs_binaryMDE fsqrt_one fdiv_one_r).
  - apply (Part000_binaryMDE fsqrt_one fdiv_one_r).
  - apply (AppJs_binaryMDE xsqrt_lit_one xdiv_lit_one_r).
  - apply (Part000_binaryMDE xsqrt_lit_one xdiv_lit_one_r).
Qed.

(** ** The ICC validation *)

Section IccXR.
Import XR.
Local Open Scope R_scope.





End IccXR.



(** ** The threshold search: [findNForMDE] *)

Section SearchSpec.
Context {num : Type} `{JSNumber num}.
Context {O : Type} `{JSObject num O}.
Variables (targetMDE : num) (calcFunc : num -> O) (field : string).

Local Abbreviation meets := (meets_target targetMDE calcFunc field).
Local Abbreviation loop := (AppJs.findNForMDE_loop targetMDE calcFunc field).

(** One turn of the loop. *)
Lemma findNForMDE_loop_step (n : Z) :
  loop n =
  if Z_le_gt_dec n 1300
  then (if meets n then FoundN n else loop (n + 10)%Z)
  else Message ">1300".
Proof.
  rewrite AppJs.findNForMDE_loop_equation_1.
  destruct (Z_le_gt_dec n 1300); reflexivity.
Qed.

(** What the loop returns when it is entered with the counter at [n]. *)
Lemma findNForMDE_loop_spec (fuel : nat) :
  forall n : Z,
    steps_left n <= fuel ->
    match loop n with
    | FoundN k =>
        (n <= k <= 1300)%Z /\ ((k - n) mod 10 = 0)%Z /\ meets k = true
        /\ (forall m : Z, (n <= m < k)%Z -> ((m - n) mod 10 = 0)%Z ->
                          meets m = false)
    | Message msg =>
        msg = ">1300"%string
        /\ (forall m : Z, (n <= m <= 1300)%Z -> ((m - n) mod 10 = 0)%Z ->
                          meets m = false)
    end.
Proof.
  induction fuel as [| fuel IH]; intros n Hfuel;
    rewrite findNForMDE_loop_step;
    destruct (Z_le_gt_dec n 1300) as [Hle | Hgt].
  - unfold steps_left in Hfuel. lia.
  - split; [reflexivity | intros; lia].
  - destruct (meets n) eqn:Hn.
    + repeat split; try lia.
      * now rewrite Z.sub_diag.
      * exact Hn.
    + assert (Hfuel' : steps_left (n + 10) <= fuel)
        by (pose proof (@steps_left_decr n 10 Hle); lia).
      specialize (IH (n + 10)%Z Hfuel').
      destruct (loop (n + 10)%Z) as [k | msg].
      * destruct IH as (Hk & Hmod & Hmeets & Hbelow).
        split; [lia |]. split; [| split; [exact Hmeets |]].
        -- revert Hmod. Z.div_mod_to_equations. lia.
        -- intros m Hm Hmmod.
           destruct (Z.eq_dec m n) as [-> | Hne]; [exact Hn |].
           apply Hbelow.
           ++ revert Hmmod. Z.div_mod_to_equations. lia.
           ++ revert Hmmod. Z.div_mod_to_equations. lia.
      * destruct IH as (Hmsg & Hnone).
        split; [exact Hmsg |].
        intros m Hm Hmmod.
        destruct (Z.eq_dec m n) as [-> | Hne]; [exact Hn |].
        apply Hnone.
        -- revert Hmmod. Z.div_mod_to_equations. lia.
        -- revert Hmmod. Z.div_mod_to_equations. lia.
  - split; [reflexivity | intros; lia].
Qed.

(** C9.  [findNForMDE] tries N = 400, 410, ..., 1300 in ascending order.
    It returns a number N exactly when N is the smallest sample size of
    that grid at which the selected field of the object computed by
    [calcFunc] is at most the target; it returns the string [">1300"]
    exactly when no sample size of the grid passes that test; and it always
    returns one or the other: there is no exception and no default N. *)
Theorem findNForMDE_smallest_or_sentinel :
  (forall n : Z,
      AppJs.findNForMDE targetMDE calcFunc field = FoundN n
      <-> (on_search_grid n /\ meets n = true
           /\ forall m : Z, on_search_grid m -> (m < n)%Z ->
                            meets m = false))
  /\ (AppJs.findNForMDE targetMDE calcFunc field = Message ">1300"
      <-> forall m : Z, on_search_grid m -> meets m = false)
  /\ ((exists n : Z, AppJs.findNForMDE targetMDE calcFunc field = FoundN n)
      \/ AppJs.findNForMDE targetMDE calcFunc field = Message ">1300").
Proof.
  unfold AppJs.findNForMDE, on_search_grid.
  pose proof (@findNForMDE_loop_spec (steps_left 400) 400%Z (le_n _))
    as Hspec.
  destruct (loop 400%Z) as [k | msg].
  - destruct Hspec as (Hk & Hmod & Hmeets & Hbelow).
    split; [| split].
    + intros n. split.
      * intros [= <-]. repeat split; try lia; try assumption.
        intros m [Hm Hmmod] Hlt. apply Hbelow; [lia | exact Hmmod].
      * intros ((Hn & Hnmod) & Hnmeets & Hnbelow).
        f_equal.
        destruct (Z.lt_trichotomy k n) as [Hlt | [Heq | Hgt]];
          [| exact Heq |].
        -- rewrite (Hnbelow k) in Hmeets by (repeat split; lia).
           discriminate.
        -- rewrite (Hbelow n) in Hnmeets by (try lia; exact Hnmod).
           discriminate.
    + split; [discriminate |].
      intros Hnone. rewrite (Hnone k) in Hmeets by (repeat split; lia).
      discriminate.
    + left. now exists k.
  - destruct Hspec as (-> & Hnone).
    split; [| split].
    + intros n. split; [discriminate |].
      intros ((Hn & Hnmod) & Hnmeets & _).
      rewrite (Hnone n) in Hnmeets by (try lia; exact Hnmod).
      discriminate.
    + split; [| reflexivity].
      intros _ m [Hm Hmmod]. apply Hnone; [lia | exact Hmmod].
    + now right.
Qed.

End SearchSpec.

(** ** The severity calculator on real inputs *)

Section RealFacts.
Local Open Scope R_scope.








End RealFacts.

Section SeverityXR.
Import XR.
Local Open Scope R_scope.

Variables (s : Settings XR.t) (p r ca icc q v m z : R).
Hypotheses
  (Hp : patientsPerCluster s = Fin p) (Hp0 : 0 < p)
  (Hr : treatmentRatio s = Fin r) (Hr0 : 0 < r)
  (Hca : controlAttrition s = Fin ca) (Hca1 : ca < 1)
  (Hicc : iccHamd s = Fin icc)
  (Hq : r2Hamd s = Fin q)
  (Hv : clusterSizeCV s = Fin v)
  (Hm : Part000.multiplierOf s = Fin m)
  (Hz : add (Part000.zAlpha (alpha s)) (Part000.zBeta (power s)) = Fin z).



End SeverityXR.

Section SeverityMonotone.
Import XR.
Local Open Scope R_scope.





End SeverityMonotone.

Section SeverityTheorem.
Import XR.
Local Open Scope R_scope.


End SeverityTheorem.

Section SeverityBoth.
Import XR.
Local Open Scope R_scope.










End SeverityBoth.

(** ** The severity MDE along the search grid, on doubles *)

Section OrderOfDoubles.









End OrderOfDoubles.

Section SearchGrid.



End SearchGrid.

Section SelectsOnDoubles.













End SelectsOnDoubles.

Section RoundingExample.
Local Open Scope R_scope.





End RoundingExample.




(** ** The order properties on doubles, checked on the reachable settings *)

(** The verdict of the ICC validation is proved above for exact
    arithmetic.  Here it is checked by running both engines on doubles for
    every pair of positions of the two ICC sliders (expected ICC 0.70 to
    0.95 by 0.01, target ICC 0.60 to 0.80 by 0.05), after the MDE along
    the search grid at the default state. *)
Section ChecksOnDoubles.
Local Open Scope js_scope.

Example mde_nonincreasing_on_search_grid64 :
  nonincreasing
    (map (fun n => Hamd.mde (AppJs.calcHamdMDE (defaults : Settings F64.t)
                               (lit n 0)))
         search_grid) = true
  /\ nonincreasing
       (map (fun n => Hamd.mde (Part000.calcHamdMDE
                                  (defaults : Settings F64.t) (lit n 0)))
            search_grid) = true.
Proof. split; vm_compute; reflexivity. Qed.

Example cannot_rule_out_on_sliders64 :
  forallb (fun e =>
    forallb (fun target =>
      forallb (fun n =>
        let s := setTargetIcc
                   (setExpectedIcc (defaults : Settings F64.t) e) target in
        implb (leb e target)
          (negb (IccVal.canRuleOutPoor (AppJs.calcIccValidation s (lit n 0)))
           && negb (IccVal.canRuleOutPoor
                      (Part000.calcIccValidation s (lit n 0)))))
        curve_grid)
      (slider 60 5 5 2))
    (slider 70 1 26 2) = true.
Proof. vm_compute. reflexivity. Qed.

(** The threshold search at work on doubles, in the default state: two
    HAM-D points are detectable from 600 patients on, one point is out of
    range, and so is any field that the returned object does not have. *)
Example findNForMDE_examples64 :
  AppJs.findNForMDE (lit 2 0)
    (AppJs.calcHamdMDE (defaults : Settings F64.t)) "mde" = FoundN 600
  /\ AppJs.findNForMDE (lit 7 0)
       (AppJs.calcRetentionMDE (defaults : Settings F64.t)) "mde"
     = FoundN 750
  /\ AppJs.findNForMDE (lit 1 0)
       (AppJs.calcHamdMDE (defaults : Settings F64.t)) "mde"
     = Message ">1300"
  /\ AppJs.findNForMDE (lit 2 0)
       (AppJs.calcHamdMDE (defaults : Settings F64.t)) "MDE"
     = Message ">1300".
Proof. repeat split; vm_compute; reflexivity. Qed.

End ChecksOnDoubles.
